(** * AutoDoc-Lambda, phase 3: the chunked documentation pipeline

    A shallow embedding of [cache_manager_improved.py] (class [CacheManager])
    and [chunk_processor_improved.py] (class [ChunkProcessor]).

    Modelling decisions, all local to this file:
    - Python [str] is [string], a sequence of characters with code points
      below 256; Python [int] is [Z]; Python [float] and DynamoDB [Decimal]
      are idealised as exact rationals [Q] (rounding is not modelled, so
      sums are stated up to [Qeq]).
    - Dictionaries with a fixed set of keys are records; the values read
      from the cache and from the generator have the types of their
      interfaces (texts are texts, costs and token counts are numbers).
    - A raised exception is the constructor [Raised] carrying [str(e)].
    - The DynamoDB table, the wall clock and the generator are external.  The
      table is a finite map inside the [World]; everything the outside world
      decides (backend faults, generator answers, the time) is read from an
      [Environment] of oracles indexed by a logical clock that ticks at every
      external call, so two calls with equal arguments may answer differently.
    - The worker pool runs each per-chunk job as one atomic step; a
      [schedule] (a permutation of the chunk list) is the order in which the
      jobs run and in which [as_completed] hands them back.  Jobs touch the
      table under their own key only, so this is every interleaving of the
      threads as long as the keys of the chunks differ. *)

From Stdlib Require Import ZArith QArith Lia Lqa Ascii String.
From Stdlib Require Import DecimalString DecimalZ.
From stdpp Require Import base list strings gmap sorting.

#[local] Open Scope string_scope.
#[local] Open Scope list_scope.

(* ===================================================================== *)
(** ** Python string primitives used by the sources *)
(* ===================================================================== *)

Module PyStr.

Definition nl : Ascii.ascii := Ascii.ascii_of_nat 10.

(** [str(n)] for an [int]. *)
Definition str_int (n : Z) : string := NilZero.string_of_int (Z.to_int n).

(** [sep.join(parts)]. *)
Fixpoint join (sep : string) (parts : list string) : string :=
  match parts with
  | [] => ""
  | [p] => p
  | p :: rest => p +:+ sep +:+ join sep rest
  end.

(** [s.split('\n')]: never empty, [''.split('\n') == ['']]. *)
Fixpoint split_nl (s : string) : list string :=
  match s with
  | EmptyString => [""]
  | String c rest =>
      if Ascii.eqb c nl then "" :: split_nl rest
      else match split_nl rest with
           | l :: ls => String c l :: ls
           | [] => [String c ""]
           end
  end.

(** [s.startswith(p)]. *)
Definition startswith (p s : string) : bool := String.prefix p s.

(** [c.isspace()] on code points below 256: TAB..CR, FS..US, SPACE,
    NEL and NBSP. *)
Definition isspace (c : Ascii.ascii) : bool :=
  let n := Ascii.nat_of_ascii c in
  (((9 <=? n) && (n <=? 13)) || ((28 <=? n) && (n <=? 32))
   || (n =? 133) || (n =? 160))%nat.

Fixpoint lstrip (s : string) : string :=
  match s with
  | EmptyString => ""
  | String c rest => if isspace c then lstrip rest else s
  end.

Fixpoint rstrip (s : string) : string :=
  match s with
  | EmptyString => ""
  | String c rest =>
      match rstrip rest with
      | EmptyString => if isspace c then "" else String c ""
      | r => String c r
      end
  end.

(** [s.strip()]. *)
Definition strip (s : string) : string := rstrip (lstrip s).

(** Truthiness of a [str]: the empty string is falsy. *)
Definition truthy (s : string) : bool :=
  match s with EmptyString => false | _ => true end.

End PyStr.

(* ===================================================================== *)
(** ** Outcomes and the state-and-exception monad *)
(* ===================================================================== *)

(** What a Python call does: it returns a value or raises an [Exception],
    of which only the message [str(e)] is kept. *)
Inductive Outcome (A : Type) : Type :=
| Returned (a : A)
| Raised (msg : string).
Arguments Returned {A} a.
Arguments Raised {A} msg.

Definition returned {A} (o : Outcome A) : bool :=
  match o with Returned _ => true | Raised _ => false end.

(* ===================================================================== *)
(** ** Data model *)
(* ===================================================================== *)

(** The [metadata] mapping of a cached item.  The pipeline writes the
    attributes [cost], [tokens], [chunk_id] and [chunk_lines]; an attribute
    that is missing from the mapping is [None] (compare
    [metadata.get('tokens', 0)]). *)
Record Metadata := mkMetadata {
  md_cost : option Q;
  md_tokens : option Q;
  md_chunk_id : option Z;
  md_chunk_lines : option string
}.

(** An item of the DynamoDB table with the attributes [save_to_cache]
    gives it; [e_source_code = None] is an item without the [source_code]
    attribute. *)
Record CacheEntry := mkCacheEntry {
  e_file_hash : string;
  e_file_path : string;
  e_documentation : string;
  e_metadata : Metadata;
  e_created_at : string;
  e_ttl : Z;
  e_source_code : option string
}.

(** Modelled from the spec: the cost metrics returned by the generator
    ([claude_client] is not among the sources); section 6 gives
    [{totalCost: decimal, totalTokens: integer, ...}], read by the processor
    as [cost_metrics['total_cost']] and [cost_metrics['total_tokens']]. *)
Record CostMetrics := mkCostMetrics {
  cm_total_cost : Q;
  cm_total_tokens : Z
}.

(** Modelled from the spec: [CodeChunk] of the [chunking] module, which is
    not among the sources; section 3 lists ordinal, start line, end line,
    type tag, contained symbol names and the text span, which the processor
    reads as [chunk_id], [start_line], [end_line], [type], [elements] and
    [content]. *)
Record CodeChunk := mkCodeChunk {
  chunk_id : Z;
  start_line : Z;
  end_line : Z;
  chunk_type : string;
  elements : list string;
  content : string
}.

(** The per-chunk result dictionary.  [source_code] and [error] are [None]
    when the key is missing or holds [None]; no code path reads them. *)
Record ChunkResult := mkChunkResult {
  r_chunk_id : Z;
  documentation : string;
  cost : Q;
  tokens : Q;
  cached : bool;
  source_code : option string;
  error : option string
}.

(** The metrics dictionary returned by [process_chunks]. *)
Record Metrics := mkMetrics {
  total_cost : Q;
  total_tokens : Q;
  total_chunks : nat;
  cache_hits : nat;
  cache_misses : nat;
  cache_hit_rate : Q
}.

(** One call of the generator: [code], [file_path] label and [context]
    ([analysis] is always [None] on this path). *)
Definition GeneratorCall : Type := string * string * string.

(** Everything outside the program.  [clock] counts the external calls made
    so far; [generator_calls] logs the generator invocations. *)
Record World := mkWorld {
  table : gmap string CacheEntry;
  clock : nat;
  generator_calls : list GeneratorCall
}.

(** The oracles of the outside world, each indexed by the logical clock.
    - [sha256_hexdigest s] is [hashlib.sha256(s.encode('utf-8')).hexdigest()];
    - [get_item_fault t key] / [put_item_fault t item] is [Some msg] when the
      boto3 call made at time [t] raises;
    - [generate_documentation t code file_path context] is what
      [ClaudeClient.generate_documentation] does at time [t] (modelled from
      the spec, section 6: it returns the text with its cost metrics or
      raises);
    - [time_time] is [int(time.time())] and [utcnow_isoformat] is
      [datetime.utcnow().isoformat()]. *)
Record Environment := mkEnvironment {
  sha256_hexdigest : string -> string;
  get_item_fault : nat -> string -> option string;
  put_item_fault : nat -> CacheEntry -> option string;
  generate_documentation :
    nat -> string -> string -> string -> Outcome (string * CostMetrics);
  time_time : nat -> Z;
  utcnow_isoformat : nat -> string
}.

(** The state-and-exception monad of the embedding. *)
Definition M (A : Type) : Type := World -> Outcome A * World.

Definition ret {A} (a : A) : M A := fun w => (Returned a, w).

Definition raise {A} (msg : string) : M A := fun w => (Raised msg, w).

Definition bind {A B} (m : M A) (f : A -> M B) : M B :=
  fun w =>
    match m w with
    | (Returned a, w') => f a w'
    | (Raised msg, w') => (Raised msg, w')
    end.

(** [try: body  except Exception as e: handler(e)]. *)
Definition try_catch {A} (body : M A) (handler : string -> M A) : M A :=
  fun w =>
    match body w with
    | (Returned a, w') => (Returned a, w')
    | (Raised msg, w') => handler msg w'
    end.

Notation "'do' x <- m 'in' k" := (bind m (fun x => k))
  (at level 10, x name, m at level 200, k at level 200,
   format "'[v' 'do'  x  <-  m  'in' '/' k ']'").

Definition tick (w : World) : World :=
  mkWorld (table w) (S (clock w)) (generator_calls w).

(* ===================================================================== *)
(** ** cache_manager_improved.py *)
(* ===================================================================== *)

Module CacheManager.
Section WithEnvironment.
Variable env : Environment.

(** [self.table.get_item(Key={'file_hash': file_hash})]; the response holds
    ['Item'] exactly when the table has the key. *)
Definition table_get_item (file_hash : string) : M (option CacheEntry) :=
  fun w =>
    match get_item_fault env (clock w) file_hash with
    | Some msg => (Raised msg, tick w)
    | None => (Returned (table w !! file_hash), tick w)
    end.

(** [self.table.put_item(Item=item)]: the item replaces whatever the table
    held under its key; a faulting call leaves the table as it was. *)
Definition table_put_item (item : CacheEntry) : M unit :=
  fun w =>
    match put_item_fault env (clock w) item with
    | Some msg => (Raised msg, tick w)
    | None =>
        (Returned tt,
         tick (mkWorld (<[e_file_hash item := item]> (table w)) (clock w)
                       (generator_calls w)))
    end.

Definition now_time : M Z := fun w => (Returned (time_time env (clock w)), w).

Definition now_isoformat : M string :=
  fun w => (Returned (utcnow_isoformat env (clock w)), w).

(** [float_to_decimal]: value preserving on exact rationals. *)
Definition float_to_decimal (metadata : Metadata) : Metadata := metadata.

(** [calculate_hash(content)]. *)
Definition calculate_hash (text : string) : string := sha256_hexdigest env text.

(** [get_cached(file_hash)]. *)
Definition get_cached (file_hash : string) : M (option CacheEntry) :=
  try_catch
    (do response <- table_get_item file_hash in
     match response with
     | Some item => ret (Some item)
     | None => ret None
     end)
    (fun e => ret None).

(** [save_to_cache(file_hash, file_path, documentation, metadata,
    ttl_hours, source_code, store_source)]. *)
Definition save_to_cache (file_hash file_path documentation : string)
    (metadata : Metadata) (ttl_hours : Z) (source_code : option string)
    (store_source : bool) : M bool :=
  try_catch
    (do t <- now_time in
     let ttl := (t + ttl_hours * 3600)%Z in
     let metadata_decimal := float_to_decimal metadata in
     do created_at <- now_isoformat in
     let item :=
       mkCacheEntry file_hash file_path documentation metadata_decimal
                    created_at ttl None in
     let item :=
       match source_code with
       | Some text =>
           if store_source && PyStr.truthy text
           then mkCacheEntry file_hash file_path documentation
                             metadata_decimal created_at ttl (Some text)
           else item
       | None => item
       end in
     do _ <- table_put_item item in
     ret true)
    (fun e => ret false).

(** [check_exists(file_hash)]. *)
Definition check_exists (file_hash : string) : M bool :=
  do cached <- get_cached file_hash in
  ret (match cached with Some _ => true | None => false end).

End WithEnvironment.
End CacheManager.

(* ===================================================================== *)
(** ** chunk_processor_improved.py *)
(* ===================================================================== *)

(** The [ChunkProcessor] object; its client and cache manager live in the
    [Environment] and the [World].  [ThreadPoolExecutor] accepts pool sizes
    from 1 on, hence [positive]. *)
Record ChunkProcessor := mkChunkProcessor {
  max_workers : positive;
  store_source_code : bool
}.

(** [chunk_results.sort(key=lambda x: x['chunk_id'])]: a stable sort,
    written as the insertion sort that keeps equal keys in their order. *)
Fixpoint insert_by_chunk_id (x : ChunkResult) (l : list ChunkResult)
  : list ChunkResult :=
  match l with
  | [] => [x]
  | y :: l' =>
      if (r_chunk_id x <=? r_chunk_id y)%Z then x :: l
      else y :: insert_by_chunk_id x l'
  end.

Fixpoint sort_by_chunk_id (l : list ChunkResult) : list ChunkResult :=
  match l with
  | [] => []
  | x :: l' => insert_by_chunk_id x (sort_by_chunk_id l')
  end.

Module ChunkProcessor.
Section WithEnvironment.
Variable env : Environment.
Variable self : ChunkProcessor.

(** [decimal_to_float]: value preserving on exact rationals. *)
Definition decimal_to_float (item : CacheEntry) : CacheEntry := item.

(** The local [hash_input] of [_calculate_chunk_hash]:
    [f"{file_path}::{chunk.chunk_id}::{chunk.content}"]. *)
Definition hash_input (file_path : string) (chunk : CodeChunk) : string :=
  file_path +:+ "::" +:+ PyStr.str_int (chunk_id chunk) +:+ "::"
  +:+ content chunk.

Definition _calculate_chunk_hash (file_path : string) (chunk : CodeChunk)
  : string :=
  sha256_hexdigest env (hash_input file_path chunk).

(** [', '.join(chunk.elements) if chunk.elements else 'code']. *)
Definition contains_text (chunk : CodeChunk) : string :=
  match elements chunk with
  | [] => "code"
  | _ => PyStr.join ", " (elements chunk)
  end.

Definition _build_chunk_context (file_path : string) (chunk : CodeChunk)
  : string :=
  PyStr.join (String PyStr.nl "")
    [ "This is part of a larger file (" +:+ file_path +:+ ").";
      "";
      "**Chunk Information:**";
      "- Chunk " +:+ PyStr.str_int (chunk_id chunk + 1);
      "- Lines: " +:+ PyStr.str_int (start_line chunk) +:+ "-"
        +:+ PyStr.str_int (end_line chunk);
      "- Type: " +:+ chunk_type chunk;
      "- Contains: " +:+ contains_text chunk;
      "";
      "Generate documentation for this specific chunk. Focus on the functions/classes present.";
      "" ].

(** [self.claude_client.generate_documentation(code=..., file_path=...,
    analysis=None, context=...)]: logged, and answered by the oracle. *)
Definition claude_generate (code file_path context : string)
  : M (string * CostMetrics) :=
  fun w =>
    (generate_documentation env (clock w) code file_path context,
     mkWorld (table w) (S (clock w))
             (generator_calls w ++ [(code, file_path, context)])).

Definition _process_single_chunk (file_path : string) (chunk : CodeChunk)
  : M ChunkResult :=
  let chunk_hash := _calculate_chunk_hash file_path chunk in
  do cached_item <- CacheManager.get_cached env chunk_hash in
  match cached_item with
  | Some item =>
      let cached_clean := decimal_to_float item in
      ret (mkChunkResult
             (chunk_id chunk)
             (e_documentation cached_clean)
             0
             (default 0%Q (md_tokens (e_metadata cached_clean)))
             true
             (e_source_code cached_clean)
             None)
  | None =>
      let context := _build_chunk_context file_path chunk in
      do answer <-
        claude_generate (content chunk)
          (file_path +:+ " (Chunk " +:+ PyStr.str_int (chunk_id chunk + 1)
           +:+ ")")
          context in
      let '(generated, cost_metrics) := answer in
      let cache_metadata :=
        mkMetadata (Some (cm_total_cost cost_metrics))
                   (Some (inject_Z (cm_total_tokens cost_metrics)))
                   (Some (chunk_id chunk))
                   (Some (PyStr.str_int (start_line chunk) +:+ "-"
                          +:+ PyStr.str_int (end_line chunk))) in
      do _ <-
        CacheManager.save_to_cache env chunk_hash
          (file_path +:+ "#chunk" +:+ PyStr.str_int (chunk_id chunk))
          generated cache_metadata 24 (Some (content chunk))
          (store_source_code self) in
      ret (mkChunkResult
             (chunk_id chunk)
             generated
             (cm_total_cost cost_metrics)
             (inject_Z (cm_total_tokens cost_metrics))
             false
             (Some (content chunk))
             None)
  end.

(** The heading, the optional [*Contains: ...*] line, the documentation
    without a leading top-level title, and the separator: what one pass of
    the loop of [_merge_chunk_documentation] appends to [doc_parts]. *)
Definition strip_title (chunk_doc : string) : string :=
  let lines := PyStr.split_nl chunk_doc in
  let lines :=
    match lines with
    | first :: rest => if PyStr.startswith "# " first then rest else lines
    | [] => lines
    end in
  PyStr.strip (PyStr.join (String PyStr.nl "") lines).

Definition section_parts (chunk : CodeChunk) (result : ChunkResult)
  : list string :=
  [ "## Chunk " +:+ PyStr.str_int (chunk_id chunk + 1) +:+ ": Lines "
    +:+ PyStr.str_int (start_line chunk) +:+ "-"
    +:+ PyStr.str_int (end_line chunk);
    "" ]
  ++ match elements chunk with
     | [] => []
     | _ => [ "*Contains: " +:+ PyStr.join ", " (elements chunk) +:+ "*"; "" ]
     end
  ++ [ strip_title (documentation result); ""; "---"; "" ].

(** [for i, result in enumerate(chunk_results): chunk = chunks[i]; ...],
    started at index [i]; [chunks[i]] raises [IndexError] out of range. *)
Fixpoint merge_loop (chunks : list CodeChunk) (i : nat)
    (chunk_results : list ChunkResult) : Outcome (list string) :=
  match chunk_results with
  | [] => Returned []
  | result :: rest =>
      match chunks !! i with
      | None => Raised "list index out of range"
      | Some chunk =>
          match merge_loop chunks (S i) rest with
          | Returned parts => Returned (section_parts chunk result ++ parts)
          | Raised msg => Raised msg
          end
      end
  end.

Definition header_parts (file_path : string) (chunks : list CodeChunk)
  : list string :=
  [ "# Documentation: " +:+ file_path;
    "";
    "*This file was processed in "
      +:+ PyStr.str_int (Z.of_nat (length chunks))
      +:+ " chunks using AST-based intelligent chunking.*";
    "" ].

Definition _merge_chunk_documentation (file_path : string)
    (chunk_results : list ChunkResult) (chunks : list CodeChunk)
  : Outcome string :=
  match merge_loop chunks 0 chunk_results with
  | Returned parts =>
      Returned (PyStr.join (String PyStr.nl "")
                  (header_parts file_path chunks ++ parts))
  | Raised msg => Raised msg
  end.

(** The worker pool: every chunk of the schedule gets its job, whatever the
    other jobs do; each job ends as a returned result or a raised fault.
    The jobs run here one after the other.  The threads of the pool may
    interleave: for chunks with different keys that makes no difference to
    the table, while two chunks under one key may both miss where here the
    second one hits. *)
Fixpoint run_jobs (file_path : string) (schedule : list CodeChunk) (w : World)
  : list (CodeChunk * Outcome ChunkResult) * World :=
  match schedule with
  | [] => ([], w)
  | chunk :: rest =>
      let '(outcome, w1) := _process_single_chunk file_path chunk w in
      let '(outcomes, w2) := run_jobs file_path rest w1 in
      ((chunk, outcome) :: outcomes, w2)
  end.

(** The local variables of [process_chunks] that the collecting loop
    updates. *)
Record Collected := mkCollected {
  acc_results : list ChunkResult;
  acc_cost : Q;
  acc_tokens : Q;
  acc_hits : nat;
  acc_misses : nat
}.

Definition collected0 : Collected := mkCollected [] 0 0 0 0.

(** The result appended by the [except] branch. *)
Definition degraded (chunk : CodeChunk) (e : string) : ChunkResult :=
  mkChunkResult
    (chunk_id chunk)
    ("<!-- Error processing chunk " +:+ PyStr.str_int (chunk_id chunk)
     +:+ ": " +:+ e +:+ " -->")
    0 0 false None (Some e).

(** One pass of [for future in as_completed(future_to_chunk)]. *)
Definition collect (acc : Collected)
    (completed : CodeChunk * Outcome ChunkResult) : Collected :=
  match completed with
  | (chunk, Returned result) =>
      mkCollected
        (acc_results acc ++ [result])
        (acc_cost acc + cost result)
        (acc_tokens acc + tokens result)
        (if cached result then S (acc_hits acc) else acc_hits acc)
        (if cached result then acc_misses acc else S (acc_misses acc))
  | (chunk, Raised e) =>
      mkCollected
        (acc_results acc ++ [degraded chunk e])
        (acc_cost acc) (acc_tokens acc) (acc_hits acc) (acc_misses acc)
  end.

(** [(cache_hits / len(chunks) * 100) if chunks else 0]. *)
Definition hit_rate (hits : nat) (chunks : list CodeChunk) : Q :=
  match chunks with
  | [] => 0
  | _ =>
      inject_Z (Z.of_nat hits) / inject_Z (Z.of_nat (length chunks)) * 100
  end.

(** [process_chunks(file_path, chunks)], with the order [schedule] in which
    the jobs of the pool run and complete. *)
Definition process_chunks (file_path : string) (chunks : list CodeChunk)
    (schedule : list CodeChunk) : M (string * Metrics) :=
  fun w =>
    let '(completed, w') := run_jobs file_path schedule w in
    let acc := fold_left collect completed collected0 in
    let chunk_results := sort_by_chunk_id (acc_results acc) in
    match _merge_chunk_documentation file_path chunk_results chunks with
    | Raised msg => (Raised msg, w')
    | Returned merged_doc =>
        (Returned
           (merged_doc,
            mkMetrics (acc_cost acc) (acc_tokens acc) (length chunks)
                      (acc_hits acc) (acc_misses acc)
                      (hit_rate (acc_hits acc) chunks)),
         w')
    end.

End WithEnvironment.
End ChunkProcessor.

(* ===================================================================== *)
(** ** Derived notions used to state the properties *)
(* ===================================================================== *)

(** The result that the collecting loop of [process_chunks] appends for a
    completed job. *)
Definition result_of (completed : CodeChunk * Outcome ChunkResult)
  : ChunkResult :=
  match completed with
  | (_, Returned result) => result
  | (chunk, Raised e) => ChunkProcessor.degraded chunk e
  end.

(** The results of the jobs that completed without raising. *)
Fixpoint returned_results (completed : list (CodeChunk * Outcome ChunkResult))
  : list ChunkResult :=
  match completed with
  | [] => []
  | (_, Returned result) :: rest => result :: returned_results rest
  | (_, Raised _) :: rest => returned_results rest
  end.

Definition sum_Q (l : list Q) : Q := fold_right Qplus 0%Q l.

(** Ordinals contiguous from zero: the chunk at index [i] has ordinal [i]. *)
Definition contiguous_ordinals (chunks : list CodeChunk) : Prop :=
  forall i chunk, chunks !! i = Some chunk -> chunk_id chunk = Z.of_nat i.

(** The chunk list with the text of the chunk at index [k] replaced. *)
Definition with_content (chunk : CodeChunk) (text : string) : CodeChunk :=
  mkCodeChunk (chunk_id chunk) (start_line chunk) (end_line chunk)
              (chunk_type chunk) (elements chunk) text.

Definition change_text (k : nat) (text : string) (chunks : list CodeChunk)
  : list CodeChunk :=
  match chunks !! k with
  | Some chunk => <[k := with_content chunk text]> chunks
  | None => chunks
  end.

(** The item [save_to_cache] hands to [put_item]. *)
Definition built_item (env : Environment) (w : World)
    (file_hash file_path text : string) (metadata : Metadata)
    (ttl_hours : Z) (source : option string) (store_source : bool)
  : CacheEntry :=
  mkCacheEntry file_hash file_path text metadata
    (utcnow_isoformat env (clock w))
    (time_time env (clock w) + ttl_hours * 3600)
    (match source with
     | Some s => if store_source && PyStr.truthy s then Some s else None
     | None => None
     end).

(** The string has no colon in it. *)
Fixpoint no_colon (s : string) : bool :=
  match s with
  | EmptyString => true
  | String c rest => negb (Ascii.eqb c ":") && no_colon rest
  end.

(** What the merged document keeps of a result: its ordinal, by which the
    results are sorted, and its documentation. *)
Definition ordinal_and_text (r : ChunkResult) : Z * string :=
  (r_chunk_id r, documentation r).

(** The documentation the table holds for a chunk, if any. *)
Definition cached_text (env : Environment) (file_path : string) (w : World)
    (chunk : CodeChunk) : option string :=
  e_documentation
    <$> table w !! ChunkProcessor._calculate_chunk_hash env file_path chunk.

(** No backend call faults, at any time. *)
Definition backend_healthy (env : Environment) : Prop :=
  (forall t key, get_item_fault env t key = None) /\
  (forall t item, put_item_fault env t item = None).

(** The three ways a per-chunk job can go, used to reason by cases on
    [_process_single_chunk]: a cache hit, a generator fault, a miss with a
    generated text (stored unless the write faults). *)
Inductive JobCase (env : Environment) (self : ChunkProcessor)
    (file_path : string) (chunk : CodeChunk)
    (w : World) : Outcome ChunkResult * World -> Prop :=
| JobHit item :
    fst (CacheManager.get_cached env
           (ChunkProcessor._calculate_chunk_hash env file_path chunk) w)
    = Returned (Some item) ->
    JobCase env self file_path chunk w
      (Returned
         (mkChunkResult (chunk_id chunk) (e_documentation item) 0
            (default 0%Q (md_tokens (e_metadata item))) true
            (e_source_code item) None),
       tick w)
| JobFault msg code label context :
    fst (CacheManager.get_cached env
           (ChunkProcessor._calculate_chunk_hash env file_path chunk) w)
    = Returned None ->
    generate_documentation env (S (clock w)) code label context = Raised msg ->
    JobCase env self file_path chunk w
      (Raised msg,
       mkWorld (table w) (S (S (clock w)))
               (generator_calls w ++ [(code, label, context)]))
| JobMiss text metrics call w' :
    fst (CacheManager.get_cached env
           (ChunkProcessor._calculate_chunk_hash env file_path chunk) w)
    = Returned None ->
    generator_calls w' = generator_calls w ++ [call] ->
    (forall key,
        key <> ChunkProcessor._calculate_chunk_hash env file_path chunk ->
        table w' !! key = table w !! key) ->
    (table w'
       !! ChunkProcessor._calculate_chunk_hash env file_path chunk
     = table w
       !! ChunkProcessor._calculate_chunk_hash env file_path chunk
     \/ exists item,
         table w'
           !! ChunkProcessor._calculate_chunk_hash env file_path chunk
         = Some item /\ e_documentation item = text) ->
    ((forall t item, put_item_fault env t item = None) ->
     exists item,
       table w' !! ChunkProcessor._calculate_chunk_hash env file_path chunk
       = Some item /\ e_documentation item = text) ->
    JobCase env self file_path chunk w
      (Returned
         (mkChunkResult (chunk_id chunk) text (cm_total_cost metrics)
            (inject_Z (cm_total_tokens metrics)) false
            (Some (content chunk)) None),
       w').

(* ===================================================================== *)
(** ** A small concrete world, for the examples *)
(* ===================================================================== *)

Module Toy.

(** An injective stand-in for the digest. *)
Definition digest (s : string) : string := "sha:" +:+ s.

(** A generator that fails on the text [boom]. *)
Definition generator (t : nat) (code label context : string)
  : Outcome (string * CostMetrics) :=
  if String.eqb code "boom" then Raised "overloaded"
  else Returned ("# Title" +:+ String PyStr.nl ("Docs of " +:+ code),
                 mkCostMetrics (1 # 100) 10).

Definition env : Environment :=
  mkEnvironment digest (fun _ _ => None) (fun _ _ => None) generator
                (fun t => 1700000000 + Z.of_nat t)%Z
                (fun _ => "2024-01-01T00:00:00").

(** The same world with a table that faults on every call. *)
Definition env_down : Environment :=
  mkEnvironment digest (fun _ _ => Some "timeout") (fun _ _ => Some "timeout")
                generator (fun t => 1700000000 + Z.of_nat t)%Z
                (fun _ => "2024-01-01T00:00:00").

Definition processor : ChunkProcessor := mkChunkProcessor 5 true.

Definition cold : World := mkWorld ∅ 0 [].

Definition chunkA : CodeChunk := mkCodeChunk 0 1 10 "function" ["f"] "A".
Definition chunkB : CodeChunk := mkCodeChunk 1 11 20 "class" [] "B".
Definition chunkC : CodeChunk := mkCodeChunk 2 21 30 "class" ["K"; "L"] "C".
Definition chunkBoom : CodeChunk := mkCodeChunk 1 11 20 "class" [] "boom".

Definition entryA : CacheEntry :=
  mkCacheEntry (digest "f.py::0::A") "f.py#chunk0" "Docs of A"
               (mkMetadata (Some (1 # 100)) (Some 10%Q) (Some 0%Z) (Some "1-10"))
               "2024-01-01T00:00:00" 1700086400 (Some "A").

Definition warm : World := mkWorld {[ digest "f.py::0::A" := entryA ]} 0 [].

Definition metadata0 : Metadata := mkMetadata (Some 0%Q) (Some 0%Q) None None.

End Toy.

(* ===================================================================== *)
(** ** cache_manager_improved.py: deletion *)
(* ===================================================================== *)

Module CacheAdmin.
Section WithBackend.

(** [delete_item_fault t key] is [Some msg] when the boto3 call
    [delete_item] made at time [t] raises. *)
Variable delete_item_fault : nat -> string -> option string.

(** [self.table.delete_item(Key={'file_hash': file_hash})]: DynamoDB
    accepts the deletion of a key it does not hold. *)
Definition table_delete_item (file_hash : string) : M unit :=
  fun w =>
    match delete_item_fault (clock w) file_hash with
    | Some msg => (Raised msg, tick w)
    | None =>
        (Returned tt,
         tick (mkWorld (delete file_hash (table w)) (clock w)
                       (generator_calls w)))
    end.

(** [delete_from_cache(file_hash)]. *)
Definition delete_from_cache (file_hash : string) : M bool :=
  try_catch
    (do _ <- table_delete_item file_hash in
     ret true)
    (fun e => ret false).

End WithBackend.
End CacheAdmin.

(* ===================================================================== *)
(** ** [float_to_decimal] and [decimal_to_float] on arbitrary values *)
(* ===================================================================== *)

Module PyValue.

#[local] Set Warnings "-register-all".

(** The Python values the two converters tell apart: a [float], a
    [Decimal], a [dict] (keys in insertion order), a [list], and anything
    else ([None], [bool], [int], [str]), which they return as it is. *)
Inductive Value : Type :=
| VNone
| VBool (b : bool)
| VInt (n : Z)
| VStr (s : string)
| VFloat (q : Q)
| VDecimal (q : Q)
| VList (items : list Value)
| VDict (items : list (string * Value)).

Section WithNumbers.

(** The two conversions of numbers, which belong to Python and not to the
    sources: [decimal_of_float x] is the value of [Decimal(str(x))], the
    decimal with the digits of the shortest text of the float;
    [float_of_decimal d] is the value of [float(d)], the float nearest to
    the decimal.  Neither keeps every value: a decimal with more digits
    than a float holds is rounded. *)
Variable decimal_of_float : Q -> Q.
Variable float_of_decimal : Q -> Q.

(** [float_to_decimal(obj)] of [cache_manager_improved.py]. *)
Fixpoint float_to_decimal (obj : Value) : Value :=
  match obj with
  | VFloat q => VDecimal (decimal_of_float q)
  | VDict items =>
      VDict (map (fun kv : string * Value =>
                let (k, v) := kv in (k, float_to_decimal v)) items)
  | VList items => VList (map float_to_decimal items)
  | _ => obj
  end.

(** [decimal_to_float(obj)] of [chunk_processor_improved.py] and
    [lambda_function_improved.py]. *)
Fixpoint decimal_to_float (obj : Value) : Value :=
  match obj with
  | VDecimal q => VFloat (float_of_decimal q)
  | VDict items =>
      VDict (map (fun kv : string * Value =>
                let (k, v) := kv in (k, decimal_to_float v)) items)
  | VList items => VList (map decimal_to_float items)
  | _ => obj
  end.

End WithNumbers.

(** The floats that occur in the value, at any depth, in order. *)
Fixpoint floats (obj : Value) : list Q :=
  match obj with
  | VFloat q => [q]
  | VDict items =>
      flat_map (fun kv : string * Value => let (k, v) := kv in floats v)
        items
  | VList items => flat_map floats items
  | _ => []
  end.

(** Some [float] occurs in the value, at any depth. *)
Fixpoint has_float (obj : Value) : bool :=
  match obj with
  | VFloat _ => true
  | VDict items => existsb (fun kv : string * Value => let (k, v) := kv in has_float v)
        items
  | VList items => existsb has_float items
  | _ => false
  end.

(** Some [Decimal] occurs in the value, at any depth. *)
Fixpoint has_decimal (obj : Value) : bool :=
  match obj with
  | VDecimal _ => true
  | VDict items => existsb (fun kv : string * Value => let (k, v) := kv in has_decimal v)
        items
  | VList items => existsb has_decimal items
  | _ => false
  end.

(** The keys of a [dict], in order; [[]] for other values. *)
Definition keys (obj : Value) : list string :=
  match obj with
  | VDict items => map fst items
  | _ => []
  end.

End PyValue.

(* ===================================================================== *)
(** ** lambda_function_improved.py: the request handler *)
(* ===================================================================== *)

Module LambdaFunction.

#[local] Set Warnings "-register-all".

(** What [json.loads] returns. *)
Inductive Json : Type :=
| JNull
| JBool (b : bool)
| JInt (n : Z)
| JFloat (q : Q)
| JStr (s : string)
| JArr (items : list Json)
| JObj (items : list (string * Json)).

(** The Lambda context object. *)
Record LambdaContext := mkLambdaContext {
  aws_request_id : string
}.

(** The event: [event_body] is [None] when the event has no ['body'] key,
    [Some None] when the key holds [None], [Some (Some text)] when it holds
    a text. *)
Record LambdaEvent := mkLambdaEvent {
  event_body : option (option string)
}.

(** A response; [body] is the value handed to [json.dumps]. *)
Record Response := mkResponse {
  statusCode : Z;
  headers : list (string * string);
  body : Json
}.

(** [not v] is [negb (truthy v)]. *)
Definition truthy (v : Json) : bool :=
  match v with
  | JNull => false
  | JBool b => b
  | JInt n => negb (n =? 0)%Z
  | JFloat q => negb (Qeq_bool q 0)
  | JStr s => PyStr.truthy s
  | JArr items => match items with [] => false | _ => true end
  | JObj items => match items with [] => false | _ => true end
  end.

(** [type(v).__name__]. *)
Definition type_name (v : Json) : string :=
  match v with
  | JNull => "NoneType"
  | JBool _ => "bool"
  | JInt _ => "int"
  | JFloat _ => "float"
  | JStr _ => "str"
  | JArr _ => "list"
  | JObj _ => "dict"
  end.

(** The message of the [AttributeError] raised by [v.attr]. *)
Definition attribute_error (v : Json) (attr : string) : string :=
  "'" +:+ type_name v +:+ "' object has no attribute '" +:+ attr +:+ "'".

(** [d.get(key)] on the items of a [dict]: the value, or [None]. *)
Fixpoint dict_get (key : string) (items : list (string * Json)) : Json :=
  match items with
  | [] => JNull
  | (k, v) :: rest => if String.eqb k key then v else dict_get key rest
  end.

(** [s.endswith(suffix)]. *)
Definition endswith (suffix s : string) : bool :=
  (String.length suffix <=? String.length s)%nat
  && String.eqb
       (String.substring (String.length s - String.length suffix)
          (String.length suffix) s)
       suffix.

(** [error_response(message, status_code)]. *)
Definition error_response (message : string) (status_code : Z) : Response :=
  mkResponse status_code
    [ ("Content-Type", "application/json");
      ("Access-Control-Allow-Origin", "*") ]
    (JObj [ ("success", JBool false); ("error", JStr message) ]).

Section WithCollaborators.

(** [json_loads] is [json.loads] on a text.  [should_chunk] is
    [chunker.should_chunk] (the [chunking] module is not among the sources;
    it answers a boolean or raises).  The two handlers stand for
    [handle_large_file] and [handle_small_file], whatever they do: they get
    the request id, the file path and the file content. *)
Variable json_loads : string -> Outcome Json.
Variable should_chunk : Json -> Outcome bool.
Variable handle_large_file : string -> Json -> Json -> M Response.
Variable handle_small_file : string -> Json -> Json -> M Response.

(** Lifting a pure call that may raise. *)
Definition lift {A} (o : Outcome A) : M A := fun w => (o, w).

(** [json.loads(event.get('body', '{}'))]. *)
Definition load_body (event : LambdaEvent) : M Json :=
  match event_body event with
  | None => lift (json_loads "{}")
  | Some None =>
      raise "the JSON object must be str, bytes or bytearray, not NoneType"
  | Some (Some text) => lift (json_loads text)
  end.

(** [body.get(key)]. *)
Definition body_get (parsed : Json) (key : string) : M Json :=
  match parsed with
  | JObj items => ret (dict_get key items)
  | _ => raise (attribute_error parsed "get")
  end.

(** [file_path.endswith('.py')]. *)
Definition path_endswith_py (file_path : Json) : M bool :=
  match file_path with
  | JStr s => ret (endswith ".py" s)
  | _ => raise (attribute_error file_path "endswith")
  end.

(** [lambda_handler(event, context)]. *)
Definition lambda_handler (event : LambdaEvent) (context : LambdaContext)
  : M Response :=
  try_catch
    (do parsed <- load_body event in
     do file_path <- body_get parsed "file_path" in
     do file_content <- body_get parsed "file_content" in
     if negb (truthy file_path) || negb (truthy file_content)
     then ret (error_response "Missing file_path or file_content" 400)
     else
       do is_python <- path_endswith_py file_path in
       if negb is_python
       then ret (error_response "Only Python files (.py) supported" 400)
       else
         do needs_chunking <- lift (should_chunk file_content) in
         if needs_chunking
         then handle_large_file (aws_request_id context) file_path
                file_content
         else handle_small_file (aws_request_id context) file_path
                file_content)
    (fun e => ret (error_response e 500)).

End WithCollaborators.
End LambdaFunction.

(* ===================================================================== *)
(** ** Further derived notions *)
(* ===================================================================== *)

(** The event holds the key ['body'] with the value [None]. *)
Definition event_body_is_null (event : LambdaFunction.LambdaEvent) : Prop :=
  LambdaFunction.event_body event = Some None.

(** The text has no line break in it. *)
Fixpoint no_newline (s : string) : bool :=
  match s with
  | EmptyString => true
  | String c rest => negb (Ascii.eqb c PyStr.nl) && no_newline rest
  end.

(** The world after the jobs of the chunks [done] have run, one after the
    other, from [w]: defined from [_process_single_chunk] alone. *)
Definition world_after (env : Environment) (self : ChunkProcessor)
    (file_path : string) (w : World) (done : list CodeChunk) : World :=
  fold_left
    (fun w chunk =>
       snd (ChunkProcessor._process_single_chunk env self file_path chunk w))
    done w.

(** An environment whose answers do not depend on the moment of the
    call. *)
Definition steady (env : Environment) : Prop :=
  forall t t',
    (forall key, get_item_fault env t key = get_item_fault env t' key)
    /\ (forall item, put_item_fault env t item = put_item_fault env t' item)
    /\ (forall code label context,
          generate_documentation env t code label context
          = generate_documentation env t' code label context)
    /\ time_time env t = time_time env t'
    /\ utcnow_isoformat env t = utcnow_isoformat env t'.

(** The jobs that returned, with their chunks, in completion order. *)
Definition survivors (completed : list (CodeChunk * Outcome ChunkResult))
  : list (CodeChunk * Outcome ChunkResult) :=
  List.filter (fun c => returned (snd c)) completed.

(** The token count the table holds for a chunk, if any. *)
Definition cached_tokens (env : Environment) (file_path : string) (w : World)
    (chunk : CodeChunk) : option Q :=
  (fun item => default 0%Q (md_tokens (e_metadata item)))
    <$> table w !! ChunkProcessor._calculate_chunk_hash env file_path chunk.

(** The label and the metadata of the miss branch of
    [_process_single_chunk]. *)
Definition chunk_label (file_path : string) (chunk : CodeChunk) : string :=
  file_path +:+ " (Chunk " +:+ PyStr.str_int (chunk_id chunk + 1) +:+ ")".

Definition chunk_metadata (chunk : CodeChunk) (metrics : CostMetrics)
  : Metadata :=
  mkMetadata (Some (cm_total_cost metrics))
             (Some (inject_Z (cm_total_tokens metrics)))
             (Some (chunk_id chunk))
             (Some (PyStr.str_int (start_line chunk) +:+ "-"
                    +:+ PyStr.str_int (end_line chunk))).

Module ToyMore.

(** A table whose deletions never fault, and one whose deletions always
    do. *)
Definition delete_ok (t : nat) (key : string) : option string := None.
Definition delete_down (t : nat) (key : string) : option string :=
  Some "timeout".

(** A parser that knows three texts. *)
Definition loads (text : string) : Outcome LambdaFunction.Json :=
  if String.eqb text "{}" then Returned (LambdaFunction.JObj [])
  else if String.eqb text "py"
  then Returned (LambdaFunction.JObj
                   [ ("file_path", LambdaFunction.JStr "a.py");
                     ("file_content", LambdaFunction.JStr "x = 1") ])
  else if String.eqb text "txt"
  then Returned (LambdaFunction.JObj
                   [ ("file_path", LambdaFunction.JStr "a.txt");
                     ("file_content", LambdaFunction.JStr "x = 1") ])
  else Raised "Expecting value: line 1 column 1 (char 0)".

Definition never_chunk (file_content : LambdaFunction.Json) : Outcome bool :=
  Returned false.

Definition ok_response : LambdaFunction.Response :=
  LambdaFunction.mkResponse 200 [] (LambdaFunction.JObj []).

Definition large (request_id : string)
    (file_path file_content : LambdaFunction.Json)
  : M LambdaFunction.Response :=
  raise "chunker failed".

Definition small (request_id : string)
    (file_path file_content : LambdaFunction.Json)
  : M LambdaFunction.Response :=
  ret ok_response.

Definition context : LambdaFunction.LambdaContext :=
  LambdaFunction.mkLambdaContext "req-1".

(** An environment like [Toy.env] with a clock that stands still. *)
Definition env_steady : Environment :=
  mkEnvironment Toy.digest (fun _ _ => None) (fun _ _ => None) Toy.generator
                (fun _ => 1700000000%Z) (fun _ => "2024-01-01T00:00:00").

(** Stand-ins for the two conversions of numbers: the decimal keeps the
    value, the float is the reduced fraction. *)
Definition to_decimal (q : Q) : Q := q.
Definition to_float (q : Q) : Q := Qred q.

Definition nested : PyValue.Value :=
  PyValue.VDict
    [ ("cost", PyValue.VFloat (1 # 100));
      ("tokens", PyValue.VInt 10);
      ("analysis",
       PyValue.VDict [ ("scores", PyValue.VList [PyValue.VFloat (1 # 2);
                                                PyValue.VStr "n/a"]) ]) ].

End ToyMore.

(* ===================================================================== *)
(** ** Python strings *)
(* ===================================================================== *)

Example str_int_examples :
  PyStr.str_int 0 = "0" /\ PyStr.str_int 12 = "12" /\ PyStr.str_int (-5) = "-5".
Proof. repeat split; reflexivity. Qed.

Example split_nl_examples :
  PyStr.split_nl "" = [""]
  /\ PyStr.split_nl ("a" +:+ String PyStr.nl "b" +:+ String PyStr.nl "")
     = ["a"; "b"; ""].
Proof. split; reflexivity. Qed.

Example strip_examples :
  PyStr.strip ("  a b " +:+ String PyStr.nl " ") = "a b"
  /\ PyStr.strip "   " = "".
Proof. split; reflexivity. Qed.

Example strip_title_examples :
  ChunkProcessor.strip_title ("# Title" +:+ String PyStr.nl "Docs of A")
  = "Docs of A"
  /\ ChunkProcessor.strip_title ("## Usage" +:+ String PyStr.nl "text")
     = "## Usage" +:+ String PyStr.nl "text".
Proof. split; reflexivity. Qed.

Example section_parts_example :
  ChunkProcessor.section_parts Toy.chunkC
    (mkChunkResult 2 ("# Title" +:+ String PyStr.nl "Docs of C") 0 0 false
                   None None)
  = [ "## Chunk 3: Lines 21-30"; ""; "*Contains: K, L*"; "";
      "Docs of C"; ""; "---"; "" ].
Proof. reflexivity. Qed.

(** stdpp keeps [append] folded; the proofs about texts unfold it where the
    first argument starts with a constructor. *)
#[local] Arguments String.append !s1 s2 : simpl nomatch.

Lemma no_colon_app a b : no_colon (a +:+ b) = no_colon a && no_colon b.
Proof.
  induction a as [|c a IH]; cbn; [reflexivity|].
  rewrite IH. apply andb_assoc.
Qed.

Lemma uint_no_colon d : no_colon (NilEmpty.string_of_uint d) = true.
Proof. induction d; cbn; auto. Qed.

Lemma str_int_no_colon n : no_colon (PyStr.str_int n) = true.
Proof.
  unfold PyStr.str_int. destruct (Z.to_int n) as [d|d]; cbn;
    destruct d; cbn; rewrite ?uint_no_colon; reflexivity.
Qed.

Lemma str_int_inj a b : PyStr.str_int a = PyStr.str_int b -> a = b.
Proof.
  unfold PyStr.str_int. intros Heq. apply DecimalZ.to_int_inj.
  assert (Hnn : forall z, Z.to_int z <> Decimal.Pos Decimal.Nil
                          /\ Z.to_int z <> Decimal.Neg Decimal.Nil).
  { intros [|p|p]; cbn; split; try discriminate;
      intros [= Hp]; by apply DecimalPos.Unsigned.to_uint_nonnil in Hp. }
  destruct (Hnn a) as [Ha1 Ha2], (Hnn b) as [Hb1 Hb2].
  pose proof (NilZero.isi _ Ha1 Ha2) as Hia.
  pose proof (NilZero.isi _ Hb1 Hb2) as Hib.
  rewrite Heq in Hia. congruence.
Qed.

Lemma string_length_app a b :
  String.length (a +:+ b) = (String.length a + String.length b)%nat.
Proof. induction a as [|c a IH]; cbn; [reflexivity|]. by rewrite IH. Qed.

Lemma append_cancel_r a b t : a +:+ t = b +:+ t -> a = b.
Proof.
  revert b. induction a as [|c a IH]; intros [|c' b] Heq; cbn in Heq.
  - reflexivity.
  - apply (f_equal String.length) in Heq. cbn in Heq.
    rewrite string_length_app in Heq. lia.
  - apply (f_equal String.length) in Heq. cbn in Heq.
    rewrite string_length_app in Heq. lia.
  - injection Heq as -> Heq. f_equal. by apply IH.
Qed.

(** A text is cut in one way only at the last [::] when what follows has
    no colon. *)
Lemma split_at_last_separator a b x y :
  no_colon x = true -> no_colon y = true ->
  a +:+ "::" +:+ x = b +:+ "::" +:+ y -> a = b /\ x = y.
Proof.
  intros Hx Hy. revert b.
  assert (Hbad : forall u v z, no_colon u = true ->
                   u <> v +:+ "::" +:+ z).
  { intros u v z Hu ->. rewrite no_colon_app in Hu. cbn in Hu.
    by rewrite andb_false_r in Hu. }
  induction a as [|c a IH]; intros [|c' b] Heq; cbn in Heq.
  - by injection Heq as ->.
  - injection Heq as <- Heq. destruct b as [|c'' b]; cbn in Heq.
    + injection Heq as ->. cbn in Hx. discriminate.
    + injection Heq as <- Heq. by apply Hbad in Heq.
  - injection Heq as -> Heq. destruct a as [|c'' a]; cbn in Heq.
    + injection Heq as <-. cbn in Hy. discriminate.
    + injection Heq as -> Heq. symmetry in Heq. by apply Hbad in Heq.
  - injection Heq as -> Heq. destruct (IH _ Heq) as [-> ->]. done.
Qed.

(* ===================================================================== *)
(** ** The cache manager *)
(* ===================================================================== *)

Ltac unfold_m :=
  unfold CacheManager.get_cached, CacheManager.save_to_cache,
    CacheManager.table_get_item, CacheManager.table_put_item,
    CacheManager.now_time, CacheManager.now_isoformat,
    CacheManager.float_to_decimal, ChunkProcessor.claude_generate,
    try_catch, bind, ret, raise, tick in *.

Lemma get_cached_eq env key w :
  CacheManager.get_cached env key w =
  (Returned (match get_item_fault env (clock w) key with
             | Some _ => None
             | None => table w !! key
             end),
   tick w).
Proof.
  unfold_m. destruct (get_item_fault env (clock w) key); [reflexivity|].
  destruct (table w !! key); reflexivity.
Qed.

Lemma save_to_cache_eq env file_hash file_path text metadata ttl_hours
    source store_source w :
  let item := built_item env w file_hash file_path text metadata ttl_hours
                         source store_source in
  CacheManager.save_to_cache env file_hash file_path text metadata
    ttl_hours source store_source w =
  match put_item_fault env (clock w) item with
  | Some _ => (Returned false, tick w)
  | None =>
      (Returned true,
       mkWorld (<[file_hash := item]> (table w)) (S (clock w))
               (generator_calls w))
  end.
Proof.
  unfold_m. unfold built_item. cbn.
  destruct source as [s|]; [destruct (store_source && PyStr.truthy s)|];
    cbn; destruct (put_item_fault env (clock w) _); reflexivity.
Qed.

(** What a lookup answers: the item of the table, unless the call faults. *)
Lemma get_cached_returns env key w :
  exists answer,
    CacheManager.get_cached env key w = (Returned answer, tick w)
    /\ (table w !! key = None -> answer = None)
    /\ (forall msg, get_item_fault env (clock w) key = Some msg ->
        answer = None)
    /\ (get_item_fault env (clock w) key = None -> answer = table w !! key).
Proof.
  rewrite get_cached_eq. eexists; split; [reflexivity|].
  destruct (get_item_fault env (clock w) key); repeat split; try done.
Qed.

(* ===================================================================== *)
(** ** The per-chunk job *)
(* ===================================================================== *)

Lemma job_cases env self file_path chunk w :
  JobCase env self file_path chunk w
    (ChunkProcessor._process_single_chunk env self file_path chunk w).
Proof.
  pose proof (get_cached_eq env
    (ChunkProcessor._calculate_chunk_hash env file_path chunk) w) as Hget.
  unfold ChunkProcessor._process_single_chunk, bind at 1.
  rewrite Hget.
  set (looked := match get_item_fault env (clock w) _ with
                 | Some _ => None | None => _ end) in *.
  destruct looked as [item|] eqn:Hlooked.
  - unfold ChunkProcessor.decimal_to_float, ret. cbn.
    apply JobHit. rewrite Hget. reflexivity.
  - unfold bind at 1, ChunkProcessor.claude_generate.
    destruct (generate_documentation env (clock (tick w)) _ _ _)
      as [[text metrics]|msg] eqn:Hgen.
    + unfold bind. rewrite save_to_cache_eq. cbn zeta.
      set (item := built_item _ _ _ _ _ _ _ _ _).
      destruct (put_item_fault env _ item) eqn:Hput; unfold ret; cbn.
      * eapply JobMiss with (call := (_, _, _)); cbn;
          [rewrite Hget; reflexivity | reflexivity | done | by left |].
        intros Hhealthy. rewrite Hhealthy in Hput. discriminate.
      * eapply JobMiss with (call := (_, _, _)); cbn.
        -- rewrite Hget. reflexivity.
        -- reflexivity.
        -- intros key Hkey. by rewrite lookup_insert_ne.
        -- right. exists item. by rewrite lookup_insert_eq.
        -- intros _. exists item. by rewrite lookup_insert_eq.
    + cbn. eapply JobFault; [rewrite Hget; reflexivity | exact Hgen].
Qed.

(** A job that raises has left the table as it found it, and the fault is
    the generator's. *)
Lemma job_raised env self file_path chunk w msg w' :
  ChunkProcessor._process_single_chunk env self file_path chunk w
  = (Raised msg, w') ->
  table w' = table w
  /\ exists code label context,
      generate_documentation env (S (clock w)) code label context
      = Raised msg.
Proof.
  intros Hjob. pose proof (job_cases env self file_path chunk w) as Hcase.
  rewrite Hjob in Hcase. inversion Hcase; subst; cbn. eauto 6.
Qed.

(** A job that returns labels its result with the ordinal of its chunk. *)
Lemma job_returned_ordinal env self file_path chunk w result w' :
  ChunkProcessor._process_single_chunk env self file_path chunk w
  = (Returned result, w') ->
  r_chunk_id result = chunk_id chunk.
Proof.
  intros Hjob. pose proof (job_cases env self file_path chunk w) as Hcase.
  rewrite Hjob in Hcase. inversion Hcase; subst; reflexivity.
Qed.

(** C7.  Cache operations never raise to their caller.  [get_cached] always
    returns, and answers "absent" both on a genuine miss and when the
    backend call faults; [save_to_cache] always returns, and a faulting
    write is reported as [False] with the table untouched; and the per-chunk
    job that calls them is never aborted by the cache: when it raises, the
    fault is one raised by the generator. *)
Theorem cache_operations_never_raise env :
  (forall key w,
      exists answer,
        CacheManager.get_cached env key w = (Returned answer, tick w)
        /\ (table w !! key = None -> answer = None)
        /\ (forall msg, get_item_fault env (clock w) key = Some msg ->
            answer = None))
  /\ (forall file_hash file_path text metadata ttl_hours source store_source w,
      exists ok w',
        CacheManager.save_to_cache env file_hash file_path text metadata
          ttl_hours source store_source w = (Returned ok, w')
        /\ (forall msg,
             put_item_fault env (clock w)
               (built_item env w file_hash file_path text metadata ttl_hours
                           source store_source) = Some msg ->
             ok = false /\ table w' = table w))
  /\ (forall self file_path chunk w msg w',
      ChunkProcessor._process_single_chunk env self file_path chunk w
      = (Raised msg, w') ->
      exists code label context,
        generate_documentation env (S (clock w)) code label context
        = Raised msg).
Proof.
  split; [|split].
  - intros key w. destruct (get_cached_returns env key w) as (a & ? & ? & ? & _).
    eauto.
  - intros. rewrite save_to_cache_eq. cbn zeta.
    destruct (put_item_fault env (clock w) _) eqn:Hput.
    + do 2 eexists. split; [reflexivity|]. intros _ _. split; reflexivity.
    + do 2 eexists. split; [reflexivity|]. intros msg Hmsg. discriminate.
  - intros self file_path chunk w msg w' Hjob.
    apply job_raised in Hjob. tauto.
Qed.

(** With the table down, a lookup answers "absent", a write answers
    [False], and the job of a chunk still returns its generated text. *)
Lemma cache_operations_never_raise_witness :
  fst (CacheManager.get_cached Toy.env_down "k" Toy.warm) = Returned None
  /\ fst (CacheManager.save_to_cache Toy.env_down "k" "p" "d" Toy.metadata0 24
            (Some "abc") true Toy.cold) = Returned false
  /\ returned (fst (ChunkProcessor._process_single_chunk Toy.env_down
                      Toy.processor "f.py" Toy.chunkA Toy.warm)) = true.
Proof.
  destruct (cache_operations_never_raise Toy.env_down) as (Hget & Hsave & _).
  split; [|split].
  - destruct (Hget "k" Toy.warm) as (a & -> & _ & Hfault).
    cbn. f_equal. exact (Hfault "timeout" eq_refl).
  - destruct (Hsave "k" "p" "d" Toy.metadata0 24%Z (Some "abc") true Toy.cold)
      as (ok & w' & -> & Hfault).
    cbn. f_equal. exact (proj1 (Hfault "timeout" eq_refl)).
  - vm_compute. reflexivity.
Defined.

(** C5, as amended.  When [save_to_cache] reports success the table holds,
    under [file_hash], an item with the given documentation whose
    [source_code] attribute is missing if [store_source] is false, or the
    source text is [None], or the source text is the empty string, and is
    exactly the source text if [store_source] is true and the text is not
    empty. *)
Theorem stored_source_field env file_hash file_path text metadata ttl_hours
    source store_source w w' :
  CacheManager.save_to_cache env file_hash file_path text metadata ttl_hours
    source store_source w = (Returned true, w') ->
  exists item,
    table w' !! file_hash = Some item
    /\ e_documentation item = text
    /\ (store_source = false \/ source = None \/ source = Some "" ->
        e_source_code item = None)
    /\ (forall s, store_source = true -> source = Some s -> s <> "" ->
        e_source_code item = Some s).
Proof.
  rewrite save_to_cache_eq. cbn zeta.
  destruct (put_item_fault env (clock w) _); [discriminate|].
  intros [= <-]. eexists. split; [apply lookup_insert_eq|].
  split; [reflexivity|]. split.
  - intros [-> | [-> | ->]]; cbn; [|reflexivity|by rewrite andb_false_r].
    by destruct source.
  - intros s -> -> Hs. cbn. by destruct s.
Qed.

Lemma stored_source_field_witness :
  exists item,
    table (snd (CacheManager.save_to_cache Toy.env "k" "p" "d" Toy.metadata0
                  24 (Some "abc") true Toy.cold)) !! "k" = Some item
    /\ e_source_code item = Some "abc".
Proof.
  destruct (stored_source_field Toy.env "k" "p" "d" Toy.metadata0 24%Z
              (Some "abc") true Toy.cold
              (snd (CacheManager.save_to_cache Toy.env "k" "p" "d"
                      Toy.metadata0 24 (Some "abc") true Toy.cold)))
    as (item & Hitem & _ & _ & Hsrc).
  - vm_compute. reflexivity.
  - exists item. split; [exact Hitem|].
    apply Hsrc; [reflexivity | reflexivity | discriminate].
Defined.

(** C5 as stated fails for a source text that is present but empty: with
    [store_source] true and the text [""], the persisted item has no
    [source_code] attribute, not the attribute [""]. *)
Lemma empty_source_is_not_stored :
  exists w' item,
    CacheManager.save_to_cache Toy.env "k" "p" "d" Toy.metadata0 24
      (Some "") true Toy.cold = (Returned true, w')
    /\ table w' !! "k" = Some item
    /\ e_source_code item <> Some "".
Proof.
  do 2 eexists. split; [vm_compute; reflexivity|].
  split; [vm_compute; reflexivity|]. discriminate.
Qed.

(** C4.  When the lookup of the chunk's key returns an entry, the job
    returns a result built from that entry alone: its documentation, the
    [tokens] of its metadata (0 when missing), [cached] true, cost zero and
    the entry's source text when it has one; the generator is not called
    and the table is not written. *)
Theorem cache_hit_builds_result_from_entry env self file_path chunk w item :
  fst (CacheManager.get_cached env
         (ChunkProcessor._calculate_chunk_hash env file_path chunk) w)
  = Returned (Some item) ->
  exists w',
    ChunkProcessor._process_single_chunk env self file_path chunk w
    = (Returned
         (mkChunkResult (chunk_id chunk) (e_documentation item) 0
            (default 0%Q (md_tokens (e_metadata item))) true
            (e_source_code item) None),
       w')
    /\ generator_calls w' = generator_calls w
    /\ table w' = table w.
Proof.
  intros Hhit. pose proof (job_cases env self file_path chunk w) as Hcase.
  inversion Hcase as [item' Hget Heq | ? ? ? ? Hget | ? ? ? ? Hget];
    rewrite Hhit in Hget; [|discriminate..].
  injection Hget as <-. exists (tick w). repeat split.
Qed.

Lemma cache_hit_builds_result_from_entry_witness :
  exists w',
    ChunkProcessor._process_single_chunk Toy.env Toy.processor "f.py"
      Toy.chunkA Toy.warm
    = (Returned (mkChunkResult 0 "Docs of A" 0 10 true (Some "A") None), w')
    /\ generator_calls w' = []
    /\ table w' = table Toy.warm.
Proof.
  apply (cache_hit_builds_result_from_entry Toy.env Toy.processor "f.py"
           Toy.chunkA Toy.warm Toy.entryA).
  vm_compute. reflexivity.
Defined.

(* ===================================================================== *)
(** ** Chunk keys *)
(* ===================================================================== *)

Lemma hash_input_inj file_path1 file_path2 (c1 c2 : CodeChunk) :
  content c1 = content c2 ->
  ChunkProcessor.hash_input file_path1 c1
  = ChunkProcessor.hash_input file_path2 c2 ->
  file_path1 = file_path2 /\ chunk_id c1 = chunk_id c2.
Proof.
  unfold ChunkProcessor.hash_input. intros Hc Heq. rewrite Hc in Heq.
  assert (Hassoc : forall p n t,
             p +:+ "::" +:+ n +:+ "::" +:+ t
             = (p +:+ "::" +:+ n) +:+ ("::" +:+ t)).
  { intros p n t. induction p as [|a p IH]; cbn; [reflexivity|].
    f_equal. exact IH. }
  rewrite !Hassoc in Heq. apply append_cancel_r in Heq.
  apply split_at_last_separator in Heq; auto using str_int_no_colon.
  destruct Heq as [-> Hid]. split; [reflexivity|]. by apply str_int_inj.
Qed.

(** C8.  The key of a chunk is the digest of the file path, [::], the
    ordinal in decimal, [::] and the chunk text.  Hence it is the same for
    two chunks of a file that agree on ordinal and text; replacing the text
    of the chunk at index [k] leaves every other chunk of the list, and so
    its key, as it was; and the same text at another ordinal or under
    another file path gives another canonical input. *)
Theorem chunk_key_depends_on_path_ordinal_content env :
  (forall file_path chunk,
      ChunkProcessor._calculate_chunk_hash env file_path chunk
      = sha256_hexdigest env
          (file_path +:+ "::" +:+ PyStr.str_int (chunk_id chunk) +:+ "::"
           +:+ content chunk))
  /\ (forall file_path c1 c2,
      chunk_id c1 = chunk_id c2 -> content c1 = content c2 ->
      ChunkProcessor._calculate_chunk_hash env file_path c1
      = ChunkProcessor._calculate_chunk_hash env file_path c2)
  /\ (forall file_path (chunks : list CodeChunk) k text i chunk,
      i <> k -> chunks !! i = Some chunk ->
      change_text k text chunks !! i = Some chunk
      /\ (ChunkProcessor._calculate_chunk_hash env file_path
            <$> change_text k text chunks) !! i
         = (ChunkProcessor._calculate_chunk_hash env file_path <$> chunks)
             !! i)
  /\ (forall file_path1 file_path2 c1 c2,
      content c1 = content c2 ->
      file_path1 <> file_path2 \/ chunk_id c1 <> chunk_id c2 ->
      ChunkProcessor.hash_input file_path1 c1
      <> ChunkProcessor.hash_input file_path2 c2).
Proof.
  split; [|split; [|split]].
  - reflexivity.
  - intros file_path c1 c2 Hid Hc.
    unfold ChunkProcessor._calculate_chunk_hash, ChunkProcessor.hash_input.
    by rewrite Hid, Hc.
  - intros file_path chunks k text i chunk Hik Hi.
    assert (Hsame : change_text k text chunks !! i = Some chunk).
    { unfold change_text. destruct (chunks !! k); [|done].
      by rewrite list_lookup_insert_ne. }
    split; [exact Hsame|]. by rewrite !list_lookup_fmap, Hsame, Hi.
  - intros file_path1 file_path2 c1 c2 Hc Hdiff Heq.
    destruct (hash_input_inj _ _ _ _ Hc Heq). tauto.
Qed.

(** Changing the text of chunk 1 of three keeps the keys of chunks 0 and 2
    and changes the canonical input of chunk 1. *)
Lemma chunk_key_depends_on_path_ordinal_content_witness :
  let chunks := [Toy.chunkA; Toy.chunkB; Toy.chunkC] in
  let chunks' := change_text 1 "B2" chunks in
  (ChunkProcessor._calculate_chunk_hash Toy.env "f.py" <$> chunks') !! 0%nat
  = (ChunkProcessor._calculate_chunk_hash Toy.env "f.py" <$> chunks) !! 0%nat
  /\ ChunkProcessor.hash_input "f.py" Toy.chunkA
     <> ChunkProcessor.hash_input "g.py" Toy.chunkA.
Proof.
  destruct (chunk_key_depends_on_path_ordinal_content Toy.env)
    as (_ & _ & Hsib & Hdiff).
  split.
  - apply (Hsib "f.py" [Toy.chunkA; Toy.chunkB; Toy.chunkC] 1%nat "B2" 0%nat
             Toy.chunkA); [lia | reflexivity].
  - apply Hdiff; [reflexivity | left; discriminate].
Defined.

(* ===================================================================== *)
(** ** The pool and the collecting loop *)
(* ===================================================================== *)

Lemma lookup_map {A B} (f : A -> B) (l : list A) i :
  map f l !! i = f <$> l !! i.
Proof.
  revert i. induction l as [|x l IH]; intros [|i]; cbn; auto.
Qed.

Lemma run_jobs_schedule env self file_path schedule w :
  map fst (fst (ChunkProcessor.run_jobs env self file_path schedule w))
  = schedule.
Proof.
  revert w. induction schedule as [|chunk rest IH]; intros w; cbn;
    [reflexivity|].
  destruct (ChunkProcessor._process_single_chunk _ _ _ _ _) as [o w1].
  specialize (IH w1).
  destruct (ChunkProcessor.run_jobs _ _ _ _ _) as [os w2]. cbn in *.
  by rewrite IH.
Qed.

Lemma run_jobs_length env self file_path schedule w :
  length (fst (ChunkProcessor.run_jobs env self file_path schedule w))
  = length schedule.
Proof.
  rewrite <- (run_jobs_schedule env self file_path schedule w) at 2.
  by rewrite length_map.
Qed.

Lemma collect_results completed acc :
  ChunkProcessor.acc_results
    (fold_left ChunkProcessor.collect completed acc)
  = ChunkProcessor.acc_results acc ++ map result_of completed.
Proof.
  revert acc. induction completed as [|[chunk [r|e]] rest IH]; intros acc;
    cbn; rewrite ?app_nil_r; try reflexivity;
    rewrite IH; cbn; by rewrite <- app_assoc.
Qed.

Lemma collect_hits completed acc :
  ChunkProcessor.acc_hits (fold_left ChunkProcessor.collect completed acc)
  = (ChunkProcessor.acc_hits acc
     + length (List.filter cached (returned_results completed)))%nat.
Proof.
  revert acc. induction completed as [|[chunk [r|e]] rest IH]; intros acc;
    cbn; [lia | | by rewrite IH].
  rewrite IH. cbn. destruct (cached r); cbn; lia.
Qed.

Lemma collect_misses completed acc :
  ChunkProcessor.acc_misses (fold_left ChunkProcessor.collect completed acc)
  = (ChunkProcessor.acc_misses acc
     + length (List.filter (fun r => negb (cached r))
                 (returned_results completed)))%nat.
Proof.
  revert acc. induction completed as [|[chunk [r|e]] rest IH]; intros acc;
    cbn; [lia | | by rewrite IH].
  rewrite IH. cbn. destruct (cached r); cbn; lia.
Qed.

Lemma collect_cost completed acc :
  ChunkProcessor.acc_cost (fold_left ChunkProcessor.collect completed acc)
  == ChunkProcessor.acc_cost acc
     + sum_Q (map cost (returned_results completed)).
Proof.
  unfold sum_Q. revert acc.
  induction completed as [|[chunk [r|e]] rest IH]; intros acc;
    cbn; [lra | | by rewrite IH].
  rewrite IH. cbn. lra.
Qed.

Lemma collect_tokens completed acc :
  ChunkProcessor.acc_tokens (fold_left ChunkProcessor.collect completed acc)
  == ChunkProcessor.acc_tokens acc
     + sum_Q (map tokens (returned_results completed)).
Proof.
  unfold sum_Q. revert acc.
  induction completed as [|[chunk [r|e]] rest IH]; intros acc;
    cbn; [lra | | by rewrite IH].
  rewrite IH. cbn. lra.
Qed.

(** Degraded results add nothing to the sums and are not cached. *)
Lemma sum_cost_all completed :
  sum_Q (map cost (map result_of completed))
  == sum_Q (map cost (returned_results completed)).
Proof.
  unfold sum_Q. induction completed as [|[chunk [r|e]] rest IH]; cbn in *; lra.
Qed.

Lemma sum_tokens_all completed :
  sum_Q (map tokens (map result_of completed))
  == sum_Q (map tokens (returned_results completed)).
Proof.
  unfold sum_Q. induction completed as [|[chunk [r|e]] rest IH]; cbn in *; lra.
Qed.

Lemma cached_all completed :
  List.filter cached (map result_of completed)
  = List.filter cached (returned_results completed).
Proof.
  induction completed as [|[chunk [r|e]] rest IH]; cbn in *;
    [reflexivity | | exact IH].
  destruct (cached r); by rewrite IH.
Qed.

Lemma filter_split (l : list ChunkResult) :
  (length (List.filter cached l)
   + length (List.filter (fun r => negb (cached r)) l))%nat = length l.
Proof.
  induction l as [|r l IH]; cbn; [reflexivity|].
  destruct (cached r); cbn; lia.
Qed.

Lemma returned_results_length completed :
  (length (returned_results completed) <= length completed)%nat
  /\ (Exists (fun c => returned (snd c) = false) completed ->
      (length (returned_results completed) < length completed)%nat).
Proof.
  induction completed as [|[chunk [r|e]] rest [IH1 IH2]]; cbn.
  - split; [lia|]. intros H. inversion H.
  - split; [lia|]. intros H. inversion H; subst; cbn in *;
      [discriminate | apply IH2 in H1; lia].
  - split; lia.
Qed.

(* ===================================================================== *)
(** ** Sorting and merging *)
(* ===================================================================== *)

Lemma insert_by_chunk_id_perm x l : insert_by_chunk_id x l ≡ₚ x :: l.
Proof.
  induction l as [|y l IH]; cbn; [reflexivity|].
  destruct (r_chunk_id x <=? r_chunk_id y)%Z; [reflexivity|].
  rewrite IH. apply perm_swap.
Qed.

Lemma sort_by_chunk_id_perm l : sort_by_chunk_id l ≡ₚ l.
Proof.
  induction l as [|x l IH]; cbn; [reflexivity|].
  by rewrite insert_by_chunk_id_perm, IH.
Qed.

Lemma insert_by_chunk_id_sorted x l :
  Sorted Z.le (map r_chunk_id l) ->
  Sorted Z.le (map r_chunk_id (insert_by_chunk_id x l)).
Proof.
  induction l as [|y l IH]; cbn; intros Hs; [repeat constructor|].
  destruct (Z.leb_spec (r_chunk_id x) (r_chunk_id y)); cbn.
  - constructor; [exact Hs | by constructor].
  - inversion Hs as [|? ? Hs' Hhd]; subst. constructor; [by apply IH|].
    destruct l as [|z l]; cbn.
    + constructor. lia.
    + destruct (Z.leb_spec (r_chunk_id x) (r_chunk_id z)); cbn;
        constructor; [lia|]. by inversion Hhd.
Qed.

Lemma sort_by_chunk_id_sorted l :
  Sorted Z.le (map r_chunk_id (sort_by_chunk_id l)).
Proof.
  induction l as [|x l IH]; cbn; [constructor|].
  by apply insert_by_chunk_id_sorted.
Qed.

Lemma merge_loop_eq chunks i results :
  (i + length results <= length chunks)%nat ->
  ChunkProcessor.merge_loop chunks i results
  = Returned
      (concat (zip_with ChunkProcessor.section_parts (drop i chunks) results)).
Proof.
  revert i. induction results as [|r rest IH]; intros i Hlen; cbn in *.
  - by destruct (drop i chunks).
  - destruct (chunks !! i) as [chunk|] eqn:Hi.
    + rewrite IH by lia. by rewrite (drop_S _ _ _ Hi).
    + apply lookup_ge_None in Hi. lia.
Qed.

(** What [process_chunks] returns when the pool ran one job per chunk. *)
Lemma process_chunks_eq env self file_path chunks schedule w :
  length schedule = length chunks ->
  let completed :=
    fst (ChunkProcessor.run_jobs env self file_path schedule w) in
  let acc := fold_left ChunkProcessor.collect completed
               ChunkProcessor.collected0 in
  ChunkProcessor.process_chunks env self file_path chunks schedule w
  = (Returned
       (PyStr.join (String PyStr.nl "")
          (ChunkProcessor.header_parts file_path chunks
           ++ concat (zip_with ChunkProcessor.section_parts chunks
                        (sort_by_chunk_id (map result_of completed)))),
        mkMetrics (ChunkProcessor.acc_cost acc)
                  (ChunkProcessor.acc_tokens acc) (length chunks)
                  (ChunkProcessor.acc_hits acc)
                  (ChunkProcessor.acc_misses acc)
                  (ChunkProcessor.hit_rate (ChunkProcessor.acc_hits acc)
                     chunks)),
     snd (ChunkProcessor.run_jobs env self file_path schedule w)).
Proof.
  intros Hlen. cbn zeta. unfold ChunkProcessor.process_chunks.
  pose proof (run_jobs_length env self file_path schedule w) as Hrun.
  destruct (ChunkProcessor.run_jobs env self file_path schedule w)
    as [completed w'].
  cbn [fst snd] in *. unfold ChunkProcessor._merge_chunk_documentation.
  rewrite collect_results. cbn [ChunkProcessor.acc_results
    ChunkProcessor.collected0 app].
  rewrite merge_loop_eq; [reflexivity|].
  rewrite (Permutation_length (sort_by_chunk_id_perm _)), length_map. lia.
Qed.

(* ===================================================================== *)
(** ** Metrics *)
(* ===================================================================== *)

(** C10.  A chunk whose job raises is counted neither as a hit nor as a
    miss, and its zero cost and tokens are not accumulated: the hit count,
    the miss count and the totals range over the jobs that returned.  So
    hits plus misses is the number of jobs that completed without raising,
    which is strictly below [total_chunks] as soon as one job raised. *)
Theorem faulted_chunks_are_not_counted env self file_path chunks schedule w :
  schedule ≡ₚ chunks ->
  exists doc m w',
    ChunkProcessor.process_chunks env self file_path chunks schedule w
    = (Returned (doc, m), w')
    /\ let completed :=
         fst (ChunkProcessor.run_jobs env self file_path schedule w) in
       cache_hits m
       = length (List.filter cached (returned_results completed))
       /\ cache_misses m
          = length (List.filter (fun r => negb (cached r))
                      (returned_results completed))
       /\ total_cost m == sum_Q (map cost (returned_results completed))
       /\ total_tokens m == sum_Q (map tokens (returned_results completed))
       /\ (cache_hits m + cache_misses m)%nat
          = length (returned_results completed)
       /\ (Exists (fun c => returned (snd c) = false) completed ->
           (cache_hits m + cache_misses m < total_chunks m)%nat).
Proof.
  intros Hperm. apply Permutation_length in Hperm.
  rewrite (process_chunks_eq _ _ _ _ _ _ Hperm). do 3 eexists.
  split; [reflexivity|]. cbn.
  set (completed := fst (ChunkProcessor.run_jobs _ _ _ _ _)).
  rewrite collect_hits, collect_misses, collect_cost, collect_tokens. cbn.
  repeat split; try lra.
  - apply filter_split.
  - intros Hex. rewrite filter_split.
    apply returned_results_length in Hex. unfold completed in *.
    rewrite run_jobs_length in Hex. lia.
Qed.

(** Three chunks, the second of which makes the generator fail: two misses,
    no hit, three chunks. *)
Lemma faulted_chunks_are_not_counted_witness :
  exists doc m w',
    ChunkProcessor.process_chunks Toy.env Toy.processor "f.py"
      [Toy.chunkA; Toy.chunkBoom; Toy.chunkC]
      [Toy.chunkC; Toy.chunkA; Toy.chunkBoom] Toy.cold
    = (Returned (doc, m), w')
    /\ (cache_hits m + cache_misses m)%nat = 2%nat
    /\ (cache_hits m + cache_misses m < total_chunks m)%nat.
Proof.
  destruct (faulted_chunks_are_not_counted Toy.env Toy.processor "f.py"
              [Toy.chunkA; Toy.chunkBoom; Toy.chunkC]
              [Toy.chunkC; Toy.chunkA; Toy.chunkBoom] Toy.cold)
    as (doc & m & w' & Hrun & _ & _ & _ & _ & Hsum & Hless).
  - etrans; [apply perm_swap|]. apply perm_skip, perm_swap.
  - exists doc, m, w'. split; [exact Hrun|]. split.
    + rewrite Hsum. vm_compute. reflexivity.
    + apply Hless. vm_compute. apply Exists_cons_tl, Exists_cons_tl.
      apply Exists_cons_hd. reflexivity.
Defined.

(** C2, as amended.  The metrics report the sum of cost and of tokens over
    all chunk results, the number of results that came from the cache, the
    number of jobs that returned an uncached result, and a hit rate of hits
    divided by the number of chunks and multiplied by 100, which is 0 for
    the empty chunk list. *)
Theorem metrics_aggregate_chunk_results env self file_path chunks schedule w :
  schedule ≡ₚ chunks ->
  exists doc m w',
    ChunkProcessor.process_chunks env self file_path chunks schedule w
    = (Returned (doc, m), w')
    /\ let completed :=
         fst (ChunkProcessor.run_jobs env self file_path schedule w) in
       let results := map result_of completed in
       total_cost m == sum_Q (map cost results)
       /\ total_tokens m == sum_Q (map tokens results)
       /\ total_chunks m = length chunks
       /\ cache_hits m = length (List.filter cached results)
       /\ cache_misses m
          = length (List.filter (fun r => negb (cached r))
                      (returned_results completed))
       /\ (chunks = [] -> cache_hit_rate m = 0%Q)
       /\ (chunks <> [] ->
           cache_hit_rate m
           = (inject_Z (Z.of_nat (cache_hits m))
              / inject_Z (Z.of_nat (total_chunks m)) * 100)%Q).
Proof.
  intros Hperm. apply Permutation_length in Hperm.
  rewrite (process_chunks_eq _ _ _ _ _ _ Hperm). do 3 eexists.
  split; [reflexivity|]. cbn.
  set (completed := fst (ChunkProcessor.run_jobs _ _ _ _ _)).
  rewrite collect_hits, collect_misses, collect_cost, collect_tokens.
  rewrite sum_cost_all, sum_tokens_all, cached_all. cbn.
  repeat split; try lra.
  - by intros ->.
  - intros Hne. by destruct chunks.
Qed.

(** One chunk served from the cache: one hit out of one chunk, rate 100. *)
Lemma metrics_aggregate_chunk_results_witness :
  exists doc m w',
    ChunkProcessor.process_chunks Toy.env Toy.processor "f.py"
      [Toy.chunkA] [Toy.chunkA] Toy.warm
    = (Returned (doc, m), w')
    /\ cache_hits m = 1%nat
    /\ cache_hit_rate m
       = (inject_Z (Z.of_nat (cache_hits m))
          / inject_Z (Z.of_nat (total_chunks m)) * 100)%Q.
Proof.
  destruct (metrics_aggregate_chunk_results Toy.env Toy.processor "f.py"
              [Toy.chunkA] [Toy.chunkA] Toy.warm)
    as (doc & m & w' & Hrun & _ & _ & _ & Hhits & _ & _ & Hrate).
  - reflexivity.
  - exists doc, m, w'. split; [exact Hrun|]. split.
    + rewrite Hhits. vm_compute. reflexivity.
    + apply Hrate. discriminate.
Defined.

(** C2 as stated fails: with one chunk, served from the cache, the hit rate
    is 100, not hits divided by chunks, which is 1. *)
Lemma hit_rate_is_a_percentage :
  exists doc m w',
    ChunkProcessor.process_chunks Toy.env Toy.processor "f.py"
      [Toy.chunkA] [Toy.chunkA] Toy.warm
    = (Returned (doc, m), w')
    /\ cache_hits m = 1%nat
    /\ total_chunks m = 1%nat
    /\ ~ cache_hit_rate m
         == inject_Z (Z.of_nat (cache_hits m))
            / inject_Z (Z.of_nat (total_chunks m)).
Proof.
  do 3 eexists. split; [vm_compute; reflexivity|]. cbn.
  repeat split. intros Heq. vm_compute in Heq. discriminate.
Qed.

(* ===================================================================== *)
(** ** Faults of single chunks *)
(* ===================================================================== *)

(** The pool runs the jobs one by one: the outcome kept for the chunk at
    position [i] is the outcome of that chunk's own job, started in the
    world the jobs before it have left. *)
Lemma run_jobs_chain env self file_path schedule w i chunk :
  schedule !! i = Some chunk ->
  fst (ChunkProcessor.run_jobs env self file_path schedule w) !! i
  = Some (chunk,
          fst (ChunkProcessor._process_single_chunk env self file_path chunk
                 (world_after env self file_path w (take i schedule)))).
Proof.
  revert w i. induction schedule as [|c rest IH]; intros w i Hi; [done|].
  cbn [ChunkProcessor.run_jobs].
  destruct (ChunkProcessor._process_single_chunk env self file_path c w)
    as [o w1] eqn:Hjob.
  destruct (ChunkProcessor.run_jobs env self file_path rest w1)
    as [os w2] eqn:Hrest.
  destruct i as [|i].
  - cbn in Hi. injection Hi as ->. cbn. by rewrite Hjob.
  - cbn in Hi. specialize (IH w1 i Hi). rewrite Hrest in IH.
    unfold world_after. cbn. rewrite Hjob. exact IH.
Qed.

(** In a steady environment a job sees of the world only the table: from
    two worlds with the same table it ends with the same outcome and
    leaves the same table. *)
Lemma job_steady env self file_path chunk w1 w2 :
  steady env ->
  table w1 = table w2 ->
  fst (ChunkProcessor._process_single_chunk env self file_path chunk w1)
  = fst (ChunkProcessor._process_single_chunk env self file_path chunk w2)
  /\ table (snd (ChunkProcessor._process_single_chunk env self file_path
                   chunk w1))
     = table (snd (ChunkProcessor._process_single_chunk env self file_path
                     chunk w2)).
Proof.
  intros Hsteady Htable.
  destruct (Hsteady (clock w1) (clock w2)) as (Hget & _).
  destruct (Hsteady (S (clock w1)) (S (clock w2))) as (_ & _ & Hgen & _).
  destruct (Hsteady (S (S (clock w1))) (S (S (clock w2))))
    as (_ & Hput & _ & Htime & Hiso).
  unfold ChunkProcessor._process_single_chunk, bind,
    ChunkProcessor.claude_generate, ret.
  rewrite !get_cached_eq, Htable, Hget.
  set (looked := match get_item_fault env (clock w2) _ with
                 | Some _ => None | None => _ end).
  destruct looked as [item|]; [by split|].
  cbn [tick clock table generator_calls]. rewrite Hgen.
  destruct (generate_documentation env (S (clock w2)) _ _ _)
    as [[text metrics]|msg]; [|by split].
  rewrite !save_to_cache_eq. cbn zeta.
  unfold built_item. cbn [clock table generator_calls].
  rewrite Htime, Hiso, Hput, Htable.
  destruct (put_item_fault env (S (S (clock w2))) _); by split.
Qed.

(** In a steady environment the outcome of a job depends on the world only
    through what the table holds under the key of its chunk. *)
Lemma job_steady_key env self file_path chunk w1 w2 :
  steady env ->
  table w1 !! ChunkProcessor._calculate_chunk_hash env file_path chunk
  = table w2 !! ChunkProcessor._calculate_chunk_hash env file_path chunk ->
  fst (ChunkProcessor._process_single_chunk env self file_path chunk w1)
  = fst (ChunkProcessor._process_single_chunk env self file_path chunk w2).
Proof.
  intros Hsteady Hkey.
  destruct (Hsteady (clock w1) (clock w2)) as (Hget & _).
  destruct (Hsteady (S (clock w1)) (S (clock w2))) as (_ & _ & Hgen & _).
  unfold ChunkProcessor._process_single_chunk, bind,
    ChunkProcessor.claude_generate, ret.
  rewrite !get_cached_eq, Hkey, Hget.
  set (looked := match get_item_fault env (clock w2) _ with
                 | Some _ => None | None => _ end).
  destruct looked as [item|]; [reflexivity|].
  cbn [tick clock table generator_calls]. rewrite Hgen.
  destruct (generate_documentation env (S (clock w2)) _ _ _)
    as [[text metrics]|msg]; [|reflexivity].
  rewrite !save_to_cache_eq. cbn zeta.
  do 2 destruct (put_item_fault env _ _); reflexivity.
Qed.

(** A job writes under the key of its own chunk only. *)
Lemma job_other_keys env self file_path chunk w key :
  key <> ChunkProcessor._calculate_chunk_hash env file_path chunk ->
  table (snd (ChunkProcessor._process_single_chunk env self file_path
                chunk w)) !! key
  = table w !! key.
Proof.
  intros Hkey. pose proof (job_cases env self file_path chunk w) as Hcase.
  destruct (ChunkProcessor._process_single_chunk env self file_path chunk w)
    as [o w'].
  inversion Hcase; subst; cbn; auto.
Qed.

Lemma world_after_other_keys env self file_path w done key :
  key ∉ map (ChunkProcessor._calculate_chunk_hash env file_path) done ->
  table (world_after env self file_path w done) !! key = table w !! key.
Proof.
  revert w. induction done as [|c rest IH]; intros w Hkey; [reflexivity|].
  cbn in Hkey. apply not_elem_of_cons in Hkey as [Hc Hrest].
  unfold world_after. cbn [fold_left].
  etrans; [apply (IH _ Hrest)|]. by apply job_other_keys.
Qed.

(** With pairwise distinct keys, in a steady environment, every job of the
    pool ends as it ends when it runs alone from the initial world. *)
Lemma run_jobs_alone env self file_path schedule w i chunk :
  steady env ->
  NoDup (map (ChunkProcessor._calculate_chunk_hash env file_path) schedule) ->
  schedule !! i = Some chunk ->
  fst (ChunkProcessor.run_jobs env self file_path schedule w) !! i
  = Some (chunk,
          fst (ChunkProcessor._process_single_chunk env self file_path
                 chunk w)).
Proof.
  intros Hsteady Hkeys Hi. rewrite (run_jobs_chain _ _ _ _ _ _ _ Hi).
  do 2 f_equal. apply job_steady_key; [exact Hsteady|].
  apply world_after_other_keys.
  rewrite <- (take_drop_middle schedule i chunk Hi) in Hkeys.
  rewrite map_app in Hkeys. cbn in Hkeys.
  apply NoDup_app in Hkeys as (_ & Hapart & _).
  intros Hin. apply (Hapart _ Hin). left.
Qed.

(** The jobs that returned, run alone: in a steady environment they end as
    they ended next to the jobs that raised, and leave the same table. *)
Lemma run_jobs_survivors env self file_path schedule w1 w2 :
  steady env ->
  table w1 = table w2 ->
  let completed :=
    fst (ChunkProcessor.run_jobs env self file_path schedule w1) in
  let alone :=
    ChunkProcessor.run_jobs env self file_path
      (map fst (survivors completed)) w2 in
  fst alone = survivors completed
  /\ table (snd alone)
     = table (snd (ChunkProcessor.run_jobs env self file_path schedule w1)).
Proof.
  intros Hsteady. cbn zeta. revert w1 w2.
  induction schedule as [|c rest IH]; intros w1 w2 Htable; [by split|].
  cbn [ChunkProcessor.run_jobs].
  pose proof (job_steady env self file_path c w1 w2 Hsteady Htable)
    as [Hout Hnext].
  destruct (ChunkProcessor._process_single_chunk env self file_path c w1)
    as [o w1'] eqn:Hjob1.
  destruct (ChunkProcessor.run_jobs env self file_path rest w1')
    as [os w1''] eqn:Hrest.
  cbn [fst snd] in *. unfold survivors. cbn [List.filter snd].
  destruct o as [r|msg]; cbn [returned].
  - cbn [map fst ChunkProcessor.run_jobs].
    destruct (ChunkProcessor._process_single_chunk env self file_path c w2)
      as [o2 w2'] eqn:Hjob2.
    cbn [fst snd] in *. subst o2.
    specialize (IH w1' w2' Hnext). rewrite Hrest in IH. cbn [fst snd] in IH.
    unfold survivors in IH.
    destruct (ChunkProcessor.run_jobs env self file_path
                (map fst (List.filter _ os)) w2') as [os2 w2''].
    cbn [fst snd] in *. destruct IH as [-> ->]. by split.
  - apply job_raised in Hjob1 as [Hkept _].
    assert (table w1' = table w2) as Htable' by congruence.
    specialize (IH w1' w2 Htable'). rewrite Hrest in IH. exact IH.
Qed.

(** C3.  A job that raises does not abort the others: every chunk of the
    schedule gets its job, the outcome kept for it is the outcome of that
    very job, and [process_chunks] returns.  The collecting loop keeps
    exactly one result per job, in completion order; for a job that raised
    [e] it is the degraded result, whose documentation is the marker
    [<!-- Error processing chunk <ordinal>: <e> -->], with cost 0, tokens 0
    and [cached] false; for a job that returned it is the returned result,
    untouched.  A job that raises has written nothing to the table.  The
    siblings are unaffected: for chunks with pairwise distinct keys, in an
    environment whose answers do not depend on the moment of the call,
    every job ends as it ends when it runs alone from the initial world,
    and the jobs that returned, run without the failing ones, end with the
    same results and leave the same table. *)
Theorem failing_chunk_yields_degraded_result env self file_path chunks
    schedule w :
  schedule ≡ₚ chunks ->
  let completed :=
    fst (ChunkProcessor.run_jobs env self file_path schedule w) in
  let results := map result_of completed in
  map fst completed = schedule
  /\ (exists doc m w',
        ChunkProcessor.process_chunks env self file_path chunks schedule w
        = (Returned (doc, m), w')
        /\ ChunkProcessor._merge_chunk_documentation file_path
             (sort_by_chunk_id results) chunks = Returned doc)
  /\ length results = length chunks
  /\ (forall i chunk e,
        completed !! i = Some (chunk, Raised e) ->
        exists r,
          results !! i = Some r
          /\ r_chunk_id r = chunk_id chunk
          /\ documentation r
             = "<!-- Error processing chunk "
               +:+ PyStr.str_int (chunk_id chunk) +:+ ": " +:+ e +:+ " -->"
          /\ cost r = 0%Q /\ tokens r = 0%Q /\ cached r = false)
  /\ (forall i chunk r,
        completed !! i = Some (chunk, Returned r) -> results !! i = Some r)
  /\ (forall chunk w0 e w1,
        ChunkProcessor._process_single_chunk env self file_path chunk w0
        = (Raised e, w1) ->
        table w1 = table w0)
  /\ (NoDup (map (ChunkProcessor._calculate_chunk_hash env file_path)
              schedule) ->
      (forall i chunk,
          schedule !! i = Some chunk ->
          completed !! i
          = Some (chunk,
                  fst (ChunkProcessor._process_single_chunk env self
                         file_path chunk
                         (world_after env self file_path w
                            (take i schedule)))))
      /\ (steady env ->
          (forall i chunk,
              schedule !! i = Some chunk ->
              completed !! i
              = Some (chunk,
                      fst (ChunkProcessor._process_single_chunk env self
                             file_path chunk w)))
          /\ let alone :=
               ChunkProcessor.run_jobs env self file_path
                 (map fst (survivors completed)) w in
             fst alone = survivors completed
             /\ table (snd alone)
                = table (snd (ChunkProcessor.run_jobs env self file_path
                                schedule w)))).
Proof.
  intros Hperm. cbn zeta. apply Permutation_length in Hperm.
  split; [apply run_jobs_schedule|].
  split; [|split; [|split; [|split; [|split]]]].
  - rewrite (process_chunks_eq _ _ _ _ _ _ Hperm). do 3 eexists.
    split; [reflexivity|].
    unfold ChunkProcessor._merge_chunk_documentation.
    rewrite merge_loop_eq; [reflexivity|].
    rewrite (Permutation_length (sort_by_chunk_id_perm _)), length_map,
      run_jobs_length. lia.
  - by rewrite length_map, run_jobs_length.
  - intros i chunk e Hi. eexists. split.
    + rewrite lookup_map, Hi. reflexivity.
    + repeat split.
  - intros i chunk r Hi. by rewrite lookup_map, Hi.
  - intros chunk w0 e w1 Hjob. by apply job_raised in Hjob as [Htable _].
  - intros Hkeys. split; [intros i chunk Hi; by apply run_jobs_chain|].
    intros Hsteady.
    split; [intros i chunk Hi; by apply run_jobs_alone|].
    by apply run_jobs_survivors.
Qed.

(** The generator fails on the chunk whose job runs first: its slot holds
    the marker, and the two chunks whose jobs run after it are documented as
    they are when they run alone. *)
Lemma failing_chunk_yields_degraded_result_witness :
  let schedule := [Toy.chunkBoom; Toy.chunkA; Toy.chunkC] in
  let completed :=
    fst (ChunkProcessor.run_jobs ToyMore.env_steady Toy.processor "f.py"
           schedule Toy.cold) in
  (exists doc m w',
     ChunkProcessor.process_chunks ToyMore.env_steady Toy.processor "f.py"
       [Toy.chunkA; Toy.chunkBoom; Toy.chunkC] schedule Toy.cold
     = (Returned (doc, m), w'))
  /\ (exists r,
        map result_of completed !! 0%nat = Some r
        /\ documentation r = "<!-- Error processing chunk 1: overloaded -->"
        /\ cached r = false)
  /\ (exists r,
        completed !! 1%nat = Some (Toy.chunkA, Returned r)
        /\ documentation r = "# Title" +:+ String PyStr.nl "Docs of A"
        /\ cached r = false)
  /\ (exists r,
        completed !! 2%nat = Some (Toy.chunkC, Returned r)
        /\ documentation r = "# Title" +:+ String PyStr.nl "Docs of C")
  /\ map fst (survivors completed) = [Toy.chunkA; Toy.chunkC]
  /\ fst (ChunkProcessor.run_jobs ToyMore.env_steady Toy.processor "f.py"
            [Toy.chunkA; Toy.chunkC] Toy.cold)
     = survivors completed.
Proof.
  cbn zeta.
  destruct (failing_chunk_yields_degraded_result ToyMore.env_steady
              Toy.processor "f.py"
              [Toy.chunkA; Toy.chunkBoom; Toy.chunkC]
              [Toy.chunkBoom; Toy.chunkA; Toy.chunkC] Toy.cold)
    as (_ & (doc & m & w' & Hrun & _) & _ & Hdeg & _ & _ & Hsiblings).
  - apply perm_swap.
  - destruct Hsiblings as [_ Hsteady].
    { exact (bool_decide_unpack
               (NoDup (map (ChunkProcessor._calculate_chunk_hash
                              ToyMore.env_steady "f.py")
                         [Toy.chunkBoom; Toy.chunkA; Toy.chunkC])) I). }
    destruct Hsteady as [Hown [Hsame _]].
    { intros t t'. repeat split. }
    split; [by exists doc, m, w'|]. split; [|split; [|split; [|split]]].
    + destruct (Hdeg 0%nat Toy.chunkBoom "overloaded")
        as (r & Hr & _ & Hdoc & _ & _ & Hc).
      * vm_compute. reflexivity.
      * exists r. split; [exact Hr|]. split; [exact Hdoc | exact Hc].
    + eexists. split; [rewrite (Hown 1%nat Toy.chunkA eq_refl)|].
      * vm_compute. reflexivity.
      * split; reflexivity.
    + eexists. split; [rewrite (Hown 2%nat Toy.chunkC eq_refl)|].
      * vm_compute. reflexivity.
      * reflexivity.
    + vm_compute. reflexivity.
    + exact Hsame.
Defined.

(* ===================================================================== *)
(** ** The empty chunk list *)
(* ===================================================================== *)

(** C6, as amended.  For the empty chunk list [process_chunks] returns, and
    what it returns is the header-only document (the title line, an empty
    line, the note on 0 chunks and a final line break, with no chunk
    section) and metrics that are all zero. *)
Theorem empty_chunk_list_gives_header_only env self file_path w :
  ChunkProcessor.process_chunks env self file_path [] [] w
  = (Returned
       (PyStr.join (String PyStr.nl "")
          [ "# Documentation: " +:+ file_path;
            "";
            "*This file was processed in 0 chunks using AST-based intelligent chunking.*";
            "" ],
        mkMetrics 0 0 0 0 0 0),
     w).
Proof. reflexivity. Qed.

(** C6 as stated fails: the document returned for the empty chunk list is
    not the empty text. *)
Lemma empty_chunk_list_document_is_not_empty :
  exists doc m w',
    ChunkProcessor.process_chunks Toy.env Toy.processor "f.py" [] [] Toy.cold
    = (Returned (doc, m), w')
    /\ doc <> ""
    /\ total_chunks m = 0%nat /\ cache_hit_rate m = 0%Q.
Proof.
  do 3 eexists. split; [vm_compute; reflexivity|].
  split; [discriminate|]. split; reflexivity.
Qed.

(* ===================================================================== *)
(** ** Output order *)
(* ===================================================================== *)

Lemma run_jobs_ordinals env self file_path schedule w :
  map r_chunk_id
    (map result_of
       (fst (ChunkProcessor.run_jobs env self file_path schedule w)))
  = map chunk_id schedule.
Proof.
  revert w. induction schedule as [|chunk rest IH]; intros w; cbn;
    [reflexivity|].
  destruct (ChunkProcessor._process_single_chunk _ _ _ _ _) as [o w1] eqn:Hjob.
  specialize (IH w1).
  destruct (ChunkProcessor.run_jobs _ _ _ _ _) as [os w2]. cbn in *.
  rewrite IH. f_equal. destruct o as [r|e]; [|reflexivity].
  by apply job_returned_ordinal in Hjob.
Qed.

Lemma completed_result_ordinal env self file_path schedule w chunk outcome :
  (chunk, outcome)
    ∈ fst (ChunkProcessor.run_jobs env self file_path schedule w) ->
  r_chunk_id (result_of (chunk, outcome)) = chunk_id chunk.
Proof.
  revert w. induction schedule as [|c rest IH]; intros w; cbn.
  - intros Hin. inversion Hin.
  - destruct (ChunkProcessor._process_single_chunk _ _ _ _ _)
      as [o w1] eqn:Hjob.
    specialize (IH w1).
    destruct (ChunkProcessor.run_jobs _ _ _ _ _) as [os w2]. cbn in *.
    intros Hin. apply elem_of_cons in Hin as [[= -> ->]|Hin]; [|by apply IH].
    destruct o as [r|e]; [|reflexivity].
    by apply job_returned_ordinal in Hjob.
Qed.

Lemma contiguous_strictly_ascending_from k (chunks : list CodeChunk) :
  (forall i chunk, chunks !! i = Some chunk ->
                   chunk_id chunk = Z.of_nat (k + i)) ->
  StronglySorted Z.lt (map chunk_id chunks)
  /\ Forall (fun z => (Z.of_nat k <= z)%Z) (map chunk_id chunks).
Proof.
  revert k. induction chunks as [|c chunks IH]; intros k Hk; cbn.
  - split; constructor.
  - destruct (IH (S k)) as [IHs IHf].
    { intros i chunk Hi. rewrite (Hk (S i) chunk Hi). f_equal. lia. }
    pose proof (Hk 0%nat c eq_refl) as Hc. rewrite Nat.add_0_r in Hc.
    split.
    + constructor; [exact IHs|].
      eapply Forall_impl; [exact IHf|]. cbn. intros z Hz. lia.
    + constructor; [lia|].
      eapply Forall_impl; [exact IHf|]. cbn. intros z Hz. lia.
Qed.

Lemma contiguous_strictly_ascending chunks :
  contiguous_ordinals chunks -> StronglySorted Z.lt (map chunk_id chunks).
Proof.
  intros Hc. by apply (contiguous_strictly_ascending_from 0).
Qed.

Lemma strictly_ascending_sorted (l : list Z) :
  StronglySorted Z.lt l -> Sorted Z.le l.
Proof.
  intros Hs. apply StronglySorted_Sorted.
  induction Hs as [|x l Hs IH Hx]; constructor; [exact IH|].
  eapply Forall_impl; [exact Hx|]. cbn. intros z Hz. lia.
Qed.

(** Sorting results whose ordinals are those of a strictly ascending chunk
    list puts the ordinals in the order of the chunk list. *)
Lemma sorted_ordinals chunks results :
  StronglySorted Z.lt (map chunk_id chunks) ->
  map r_chunk_id results ≡ₚ map chunk_id chunks ->
  map r_chunk_id (sort_by_chunk_id results) = map chunk_id chunks.
Proof.
  intros Hasc Hperm.
  apply (Sorted_unique Z.le).
  - apply sort_by_chunk_id_sorted.
  - by apply strictly_ascending_sorted.
  - rewrite <- Hperm. apply Permutation_map, sort_by_chunk_id_perm.
Qed.

(** C1.  For a chunk list with contiguous zero-based ordinals and any order
    of completion, [process_chunks] returns the document whose sections
    follow the chunk list: section [i] is headed by chunk [i] and carries
    the documentation of the result of that chunk's own job.  The sorted
    results have the ordinals 0, 1, 2, ... in strictly ascending order. *)
Theorem sections_follow_chunk_order env self file_path chunks schedule w :
  contiguous_ordinals chunks ->
  schedule ≡ₚ chunks ->
  let completed :=
    fst (ChunkProcessor.run_jobs env self file_path schedule w) in
  let sorted := sort_by_chunk_id (map result_of completed) in
  (exists m w',
      ChunkProcessor.process_chunks env self file_path chunks schedule w
      = (Returned
           (PyStr.join (String PyStr.nl "")
              (ChunkProcessor.header_parts file_path chunks
               ++ concat (zip_with ChunkProcessor.section_parts chunks
                            sorted)),
            m),
         w'))
  /\ map r_chunk_id sorted = map chunk_id chunks
  /\ StronglySorted Z.lt (map r_chunk_id sorted)
  /\ (forall i chunk,
        chunks !! i = Some chunk ->
        exists r outcome,
          sorted !! i = Some r
          /\ r_chunk_id r = Z.of_nat i
          /\ (chunk, outcome) ∈ completed
          /\ r = result_of (chunk, outcome)).
Proof.
  intros Hcont Hperm. cbn zeta.
  set (completed := fst (ChunkProcessor.run_jobs _ _ _ _ _)).
  pose proof (contiguous_strictly_ascending _ Hcont) as Hasc.
  assert (Hids : map r_chunk_id (sort_by_chunk_id (map result_of completed))
                 = map chunk_id chunks).
  { apply sorted_ordinals; [exact Hasc|]. unfold completed.
    rewrite run_jobs_ordinals. by apply Permutation_map. }
  split; [|split; [exact Hids|split; [by rewrite Hids|]]].
  - rewrite (process_chunks_eq _ _ _ _ _ _ (Permutation_length Hperm)).
    eauto.
  - intros i chunk Hi.
    assert (Hri : map r_chunk_id (sort_by_chunk_id (map result_of completed))
                    !! i = Some (chunk_id chunk)).
    { by rewrite Hids, lookup_map, Hi. }
    rewrite lookup_map in Hri.
    destruct (sort_by_chunk_id (map result_of completed) !! i)
      as [r|] eqn:Hr; [|discriminate].
    injection Hri as Hri.
    assert (Hin : r ∈ map result_of completed).
    { rewrite <- (sort_by_chunk_id_perm (map result_of completed)).
      by eapply list_elem_of_lookup_2. }
    apply list_elem_of_In, in_map_iff in Hin.
    destruct Hin as ([chunk' outcome] & Hres & Hin).
    apply list_elem_of_In in Hin.
    assert (Hid' : r_chunk_id r = chunk_id chunk').
    { rewrite <- Hres. by eapply completed_result_ordinal. }
    assert (Hchunk' : chunk' ∈ chunks).
    { rewrite <- Hperm.
      rewrite <- (run_jobs_schedule env self file_path schedule w).
      fold completed. apply list_elem_of_In, in_map_iff.
      exists (chunk', outcome). split; [reflexivity|].
      by apply list_elem_of_In. }
    apply list_elem_of_lookup in Hchunk' as [k Hk].
    pose proof (Hcont _ _ Hk) as Hidk. pose proof (Hcont _ _ Hi) as Hidi.
    assert (k = i) as -> by lia.
    assert (chunk' = chunk) as -> by congruence.
    exists r, outcome. repeat split; [congruence | exact Hin | by symmetry].
Qed.

(** Three chunks completing in the order 2, 0, 1: the first section is that
    of chunk 0 and the third that of chunk 2. *)
Lemma sections_follow_chunk_order_witness :
  let completed :=
    fst (ChunkProcessor.run_jobs Toy.env Toy.processor "f.py"
           [Toy.chunkC; Toy.chunkA; Toy.chunkB] Toy.cold) in
  map r_chunk_id (sort_by_chunk_id (map result_of completed))
  = [0%Z; 1%Z; 2%Z].
Proof.
  refine (proj1 (proj2
    (sections_follow_chunk_order Toy.env Toy.processor "f.py"
       [Toy.chunkA; Toy.chunkB; Toy.chunkC]
       [Toy.chunkC; Toy.chunkA; Toy.chunkB] Toy.cold _ _))).
  - intros [|[|[|i]]] chunk Hi; cbn in Hi; try discriminate;
      injection Hi as <-; reflexivity.
  - etrans; [apply perm_swap|]. apply perm_skip, perm_swap.
Defined.

(* ===================================================================== *)
(** ** Re-running on a warm cache *)
(* ===================================================================== *)

(** With a healthy backend a job only adds to the table, and a job that
    returns leaves its documentation in the table under the chunk's key. *)
Lemma job_healthy env self file_path chunk w outcome w' :
  backend_healthy env ->
  ChunkProcessor._process_single_chunk env self file_path chunk w
  = (outcome, w') ->
  table w ⊆ table w'
  /\ (forall r, outcome = Returned r ->
      cached_text env file_path w' chunk = Some (documentation r)).
Proof.
  intros [Hget Hput] Hjob.
  pose proof (job_cases env self file_path chunk w) as Hcase.
  rewrite Hjob in Hcase. unfold cached_text.
  inversion Hcase as [item Hlook | msg ? ? ? Hlook
                     | text metrics call ? Hlook Hcalls Hother Hkey Hstored];
    subst; rewrite get_cached_eq, Hget in Hlook; cbn in Hlook.
  - split; [done|]. intros r [= <-]. cbn.
    injection Hlook as ->. reflexivity.
  - split; [done|]. intros r [=].
  - injection Hlook as Hlook. split.
    + apply map_subseteq_spec. intros key item Hitem.
      rewrite Hother; [done|]. intros ->. congruence.
    + intros r [= <-]. cbn. destruct (Hstored Hput) as (item & -> & <-).
      reflexivity.
Qed.

Lemma cached_text_mono env file_path w w' chunk text :
  table w ⊆ table w' ->
  cached_text env file_path w chunk = Some text ->
  cached_text env file_path w' chunk = Some text.
Proof.
  unfold cached_text. intros Hsub Htext.
  destruct (table w !! _) as [item|] eqn:Hitem; [|discriminate].
  by rewrite (lookup_weaken _ _ _ _ Hitem Hsub).
Qed.

Lemma run_jobs_healthy env self file_path schedule w :
  backend_healthy env ->
  table w
    ⊆ table (snd (ChunkProcessor.run_jobs env self file_path schedule w))
  /\ (forall chunk r,
      (chunk, Returned r)
        ∈ fst (ChunkProcessor.run_jobs env self file_path schedule w) ->
      cached_text env file_path
        (snd (ChunkProcessor.run_jobs env self file_path schedule w)) chunk
      = Some (documentation r)).
Proof.
  intros Hhealthy. revert w.
  induction schedule as [|c rest IH]; intros w; cbn.
  - split; [done|]. intros chunk r Hin. inversion Hin.
  - destruct (ChunkProcessor._process_single_chunk _ _ _ _ _)
      as [o w1] eqn:Hjob.
    destruct (job_healthy _ _ _ _ _ _ _ Hhealthy Hjob) as [Hsub1 Hdoc1].
    destruct (IH w1) as [Hsub2 Hdoc2].
    destruct (ChunkProcessor.run_jobs _ _ _ _ _) as [os w2]. cbn in *.
    split; [by etrans|].
    intros chunk r Hin. apply elem_of_cons in Hin as [[= -> <-]|Hin].
    + eapply cached_text_mono; [exact Hsub2|]. by apply Hdoc1.
    + by apply Hdoc2.
Qed.

(** With a healthy backend and an entry for every scheduled chunk, every
    job is a hit: nothing is generated, nothing is written. *)
Lemma run_jobs_warm env self file_path schedule w :
  backend_healthy env ->
  (forall chunk, chunk ∈ schedule ->
                 is_Some (cached_text env file_path w chunk)) ->
  table (snd (ChunkProcessor.run_jobs env self file_path schedule w))
  = table w
  /\ generator_calls
       (snd (ChunkProcessor.run_jobs env self file_path schedule w))
     = generator_calls w
  /\ (forall chunk outcome,
      (chunk, outcome)
        ∈ fst (ChunkProcessor.run_jobs env self file_path schedule w) ->
      exists r,
        outcome = Returned r /\ cached r = true
        /\ cached_text env file_path w chunk = Some (documentation r)).
Proof.
  intros Hhealthy. revert w.
  induction schedule as [|c rest IH]; intros w Hwarm; cbn.
  - repeat split. intros chunk outcome Hin. inversion Hin.
  - pose proof (job_cases env self file_path c w) as Hcase.
    destruct (ChunkProcessor._process_single_chunk _ _ _ _ _) as [o w1].
    assert (Hc : is_Some (cached_text env file_path w c))
      by (apply Hwarm; left).
    unfold cached_text in Hc. destruct Hhealthy as [Hget Hput].
    inversion Hcase as [item Hlook | msg ? ? ? Hlook
                       | text metrics call ? Hlook];
      subst; rewrite get_cached_eq, Hget in Hlook; cbn in Hlook;
      injection Hlook as Hlook;
      try (rewrite Hlook in Hc; by destruct Hc).
    destruct (IH (tick w)) as (Htable & Hcalls & Hall).
    { intros chunk Hin. apply Hwarm. by right. }
    destruct (ChunkProcessor.run_jobs _ _ _ _ _) as [os w2]. cbn in *.
    repeat split; [exact Htable | exact Hcalls |].
    intros chunk outcome Hin.
    apply elem_of_cons in Hin as [[= -> ->]|Hin]; [|by apply Hall].
    eexists. repeat split. unfold cached_text. by rewrite Hlook.
Qed.

Lemma map_via_fst {A B C} (f : A * B -> C) (g : A -> C) (l : list (A * B)) :
  (forall x, x ∈ l -> f x = g (fst x)) -> map f l = map g (map fst l).
Proof.
  induction l as [|x l IH]; intros Hfg; cbn; [reflexivity|].
  rewrite Hfg by left. f_equal. apply IH. intros y Hy. apply Hfg. by right.
Qed.

Lemma sort_by_chunk_id_sorted_by_ordinal l :
  Sorted (fun a b : Z * string => (fst a <= fst b)%Z)
    (map ordinal_and_text (sort_by_chunk_id l)).
Proof.
  pose proof (sort_by_chunk_id_sorted l) as Hs.
  induction (sort_by_chunk_id l) as [|x s IH]; cbn in *; [constructor|].
  inversion Hs as [|? ? Hs' Hhd]; subst. constructor; [by apply IH|].
  destruct s; cbn in *; constructor. by inversion Hhd.
Qed.

(** Two result lists that carry the same ordinals and texts, in any order,
    sort to lists with the same texts when no ordinal repeats. *)
Lemma sorted_texts_agree (l1 l2 : list ChunkResult) :
  NoDup (map r_chunk_id l1) ->
  map ordinal_and_text l1 ≡ₚ map ordinal_and_text l2 ->
  map ordinal_and_text (sort_by_chunk_id l1)
  = map ordinal_and_text (sort_by_chunk_id l2).
Proof.
  intros Hnd Hperm.
  assert (Hp1 : map ordinal_and_text (sort_by_chunk_id l1)
                ≡ₚ map ordinal_and_text l1)
    by apply Permutation_map, sort_by_chunk_id_perm.
  assert (Hp2 : map ordinal_and_text (sort_by_chunk_id l2)
                ≡ₚ map ordinal_and_text l2)
    by apply Permutation_map, sort_by_chunk_id_perm.
  assert (Htrans : Transitive (fun a b : Z * string => (fst a <= fst b)%Z))
    by (intros [] [] []; cbn; lia).
  apply (Sorted_unique_strong
           (fun a b : Z * string => (fst a <= fst b)%Z)).
  - intros [i1 t1] [i2 t2] H1 H2 Hle Hge. cbn in *.
    assert (i1 = i2) as -> by lia. f_equal.
    rewrite Hp1 in H1. rewrite Hp2, <- Hperm in H2.
    clear -Hnd H1 H2. induction l1 as [|r l1 IH]; cbn in *.
    + inversion H1.
    + apply NoDup_cons in Hnd as [Hr Hnd].
      apply elem_of_cons in H1 as [H1|H1], H2 as [H2|H2].
      * unfold ordinal_and_text in *. congruence.
      * exfalso. apply Hr. injection H1 as -> _.
        apply list_elem_of_In, in_map_iff in H2 as (r' & [= <- _] & Hr').
        apply list_elem_of_In, in_map. exact Hr'.
      * exfalso. apply Hr. injection H2 as -> _.
        apply list_elem_of_In, in_map_iff in H1 as (r' & [= <- _] & Hr').
        apply list_elem_of_In, in_map. exact Hr'.
      * by apply IH.
  - apply sort_by_chunk_id_sorted_by_ordinal.
  - apply sort_by_chunk_id_sorted_by_ordinal.
  - by rewrite Hp1, Hp2.
Qed.

(** The sections depend on the results through their texts only. *)
Lemma sections_of_texts chunks (l1 l2 : list ChunkResult) :
  map ordinal_and_text l1 = map ordinal_and_text l2 ->
  zip_with ChunkProcessor.section_parts chunks l1
  = zip_with ChunkProcessor.section_parts chunks l2.
Proof.
  revert l1 l2. induction chunks as [|c chunks IH];
    intros [|r1 l1] [|r2 l2] Heq; cbn in *; try done.
  injection Heq as Hid Hdoc Heq.
  rewrite (IH _ _ Heq). unfold ChunkProcessor.section_parts.
  by rewrite Hdoc.
Qed.

Lemma all_hits_counted (completed : list (CodeChunk * Outcome ChunkResult)) :
  (forall chunk outcome, (chunk, outcome) ∈ completed ->
     exists r, outcome = Returned r /\ cached r = true) ->
  length (List.filter cached (returned_results completed)) = length completed
  /\ length (List.filter (fun r => negb (cached r))
               (returned_results completed)) = 0%nat.
Proof.
  induction completed as [|[c o] rest IH]; intros Hall; cbn;
    [by split|].
  assert (Hhead : (c, o) ∈ (c, o) :: rest) by left.
  destruct (Hall c o Hhead) as (r & -> & Hr).
  assert (Hrest : forall chunk outcome, (chunk, outcome) ∈ rest ->
            exists r, outcome = Returned r /\ cached r = true).
  { intros chunk outcome Hin. apply (Hall chunk). by right. }
  destruct (IH Hrest) as [IH1 IH2].
  cbn. rewrite Hr. cbn. by rewrite IH1, IH2.
Qed.

(** C9.  Let the table answer every call and let no ordinal repeat.  After
    a first invocation in which every chunk job returned, every chunk's
    entry is in the table, and a second invocation on the same file path and
    chunk list, in any order of completion, calls the generator not once,
    returns the very same merged document, writes nothing, and counts as
    many hits as there are chunks. *)
Theorem warm_rerun_is_served_from_cache env self file_path chunks
    schedule1 schedule2 w0 :
  backend_healthy env ->
  NoDup (map chunk_id chunks) ->
  schedule1 ≡ₚ chunks ->
  schedule2 ≡ₚ chunks ->
  Forall (fun c => returned (snd c) = true)
    (fst (ChunkProcessor.run_jobs env self file_path schedule1 w0)) ->
  exists doc m1 w1 m2 w2,
    ChunkProcessor.process_chunks env self file_path chunks schedule1 w0
    = (Returned (doc, m1), w1)
    /\ ChunkProcessor.process_chunks env self file_path chunks schedule2 w1
       = (Returned (doc, m2), w2)
    /\ (forall chunk, chunk ∈ chunks ->
        is_Some (cached_text env file_path w1 chunk))
    /\ generator_calls w2 = generator_calls w1
    /\ table w2 = table w1
    /\ cache_hits m2 = length chunks
    /\ cache_misses m2 = 0%nat.
Proof.
  intros Hhealthy Hnodup Hperm1 Hperm2 Hreturned.
  rewrite (process_chunks_eq _ _ _ _ _ _ (Permutation_length Hperm1)).
  cbn zeta.
  destruct (run_jobs_healthy env self file_path schedule1 w0 Hhealthy)
    as [_ Hdoc1].
  pose proof (run_jobs_schedule env self file_path schedule1 w0) as Hfst1.
  pose proof (run_jobs_ordinals env self file_path schedule1 w0) as Hord1.
  pose proof (completed_result_ordinal env self file_path schedule1 w0)
    as Hid1.
  set (completed1 := fst (ChunkProcessor.run_jobs _ _ _ schedule1 w0)) in *.
  set (w1 := snd (ChunkProcessor.run_jobs _ _ _ schedule1 w0)) in *.
  assert (Hcached : forall chunk outcome, (chunk, outcome) ∈ completed1 ->
            exists r, outcome = Returned r
                      /\ cached_text env file_path w1 chunk
                         = Some (documentation r)).
  { intros chunk outcome Hin.
    rewrite Forall_forall in Hreturned.
    pose proof (Hreturned _ Hin) as Hret. cbn in Hret.
    destruct outcome as [r|e]; [|discriminate]. eauto. }
  assert (Hwarm : forall chunk, chunk ∈ schedule2 ->
            is_Some (cached_text env file_path w1 chunk)).
  { intros chunk Hin. rewrite Hperm2, <- Hperm1, <- Hfst1 in Hin.
    apply list_elem_of_In, in_map_iff in Hin as ([c o] & Hc & Hin).
    cbn in Hc. subst c. apply list_elem_of_In in Hin.
    destruct (Hcached _ _ Hin) as (r & _ & ->). eauto. }
  destruct (run_jobs_warm env self file_path schedule2 w1 Hhealthy Hwarm)
    as (Htable & Hcalls & Hall2).
  pose proof (process_chunks_eq env self file_path chunks schedule2 w1
                (Permutation_length Hperm2)) as Hrun2.
  cbn zeta in Hrun2.
  pose proof (run_jobs_schedule env self file_path schedule2 w1) as Hfst2.
  pose proof (run_jobs_length env self file_path schedule2 w1) as Hlen2.
  pose proof (completed_result_ordinal env self file_path schedule2 w1)
    as Hid2.
  set (completed2 := fst (ChunkProcessor.run_jobs _ _ _ schedule2 w1)) in *.
  set (w2 := snd (ChunkProcessor.run_jobs _ _ _ schedule2 w1)) in *.
  set (text_of := fun chunk =>
         (chunk_id chunk, default "" (cached_text env file_path w1 chunk))).
  assert (Hrs1 : map ordinal_and_text (map result_of completed1)
                 = map text_of schedule1).
  { rewrite map_map, <- Hfst1. apply map_via_fst. intros [c o] Hin.
    destruct (Hcached _ _ Hin) as (r & -> & Htext).
    unfold text_of, ordinal_and_text. cbn. rewrite Htext. cbn.
    by rewrite <- (Hid1 _ _ Hin). }
  assert (Hrs2 : map ordinal_and_text (map result_of completed2)
                 = map text_of schedule2).
  { rewrite map_map, <- Hfst2. apply map_via_fst. intros [c o] Hin.
    destruct (Hall2 _ _ Hin) as (r & -> & _ & Htext).
    unfold text_of, ordinal_and_text. cbn. rewrite Htext. cbn.
    by rewrite <- (Hid2 _ _ Hin). }
  assert (Hsame : zip_with ChunkProcessor.section_parts chunks
                    (sort_by_chunk_id (map result_of completed2))
                  = zip_with ChunkProcessor.section_parts chunks
                      (sort_by_chunk_id (map result_of completed1))).
  { apply sections_of_texts. symmetry. apply sorted_texts_agree.
    - rewrite Hord1.
      assert (Hids : map chunk_id schedule1 ≡ₚ map chunk_id chunks)
        by (by apply Permutation_map).
      by rewrite Hids.
    - rewrite Hrs1, Hrs2. apply Permutation_map. by rewrite Hperm1, Hperm2. }
  rewrite Hsame in Hrun2. do 5 eexists. split; [reflexivity|].
  split; [exact Hrun2|].
  split; [intros chunk Hin; apply Hwarm; by rewrite Hperm2|].
  split; [exact Hcalls|]. split; [exact Htable|].
  cbn. rewrite collect_hits, collect_misses. cbn.
  destruct (all_hits_counted completed2) as [Hhits Hmisses].
  { intros chunk outcome Hin. destruct (Hall2 _ _ Hin) as (r & ? & ? & _).
    eauto. }
  rewrite Hhits, Hmisses. split; [|reflexivity].
  fold completed2 in Hlen2. rewrite Hlen2. by apply Permutation_length.
Qed.

(** Three chunks on a cold cache, completing in the order 2, 0, 1; then the
    same three chunks again, completing in the order 1, 0, 2: no generator
    call in the second run, the same document, three hits. *)
Lemma warm_rerun_is_served_from_cache_witness :
  exists doc m1 w1 m2 w2,
    ChunkProcessor.process_chunks Toy.env Toy.processor "f.py"
      [Toy.chunkA; Toy.chunkB; Toy.chunkC]
      [Toy.chunkC; Toy.chunkA; Toy.chunkB] Toy.cold
    = (Returned (doc, m1), w1)
    /\ ChunkProcessor.process_chunks Toy.env Toy.processor "f.py"
         [Toy.chunkA; Toy.chunkB; Toy.chunkC]
         [Toy.chunkB; Toy.chunkA; Toy.chunkC] w1
       = (Returned (doc, m2), w2)
    /\ (forall chunk, chunk ∈ [Toy.chunkA; Toy.chunkB; Toy.chunkC] ->
        is_Some (cached_text Toy.env "f.py" w1 chunk))
    /\ generator_calls w2 = generator_calls w1
    /\ table w2 = table w1
    /\ cache_hits m2 = 3%nat
    /\ cache_misses m2 = 0%nat.
Proof.
  apply (warm_rerun_is_served_from_cache Toy.env Toy.processor "f.py"
           [Toy.chunkA; Toy.chunkB; Toy.chunkC]
           [Toy.chunkC; Toy.chunkA; Toy.chunkB]
           [Toy.chunkB; Toy.chunkA; Toy.chunkC] Toy.cold).
  - split; intros; reflexivity.
  - exact (bool_decide_unpack (NoDup [0%Z; 1%Z; 2%Z]) I).
  - etrans; [apply perm_swap|]. apply perm_skip, perm_swap.
  - apply perm_swap.
  - vm_compute. repeat constructor.
Defined.

(* ===================================================================== *)
(** ** More on the cache manager *)
(* ===================================================================== *)

Lemma check_exists_eq env key w :
  CacheManager.check_exists env key w =
  (Returned (match get_item_fault env (clock w) key with
             | Some _ => false
             | None => match table w !! key with
                       | Some _ => true
                       | None => false
                       end
             end),
   tick w).
Proof.
  unfold CacheManager.check_exists, bind. rewrite get_cached_eq.
  destruct (get_item_fault env (clock w) key); [reflexivity|].
  destruct (table w !! key); reflexivity.
Qed.

(** X1.  What [save_to_cache] reports as saved can be read back: as long
    as the read does not fault, [get_cached] under the same key returns an
    item with the hash, path, documentation and metadata that were given,
    created at the time of the call and expiring [ttl_hours * 3600] seconds
    later, whatever the table held under that key before; [check_exists]
    answers [True]; every other key of the table is as it was. *)
Theorem save_then_lookup_round_trip env file_hash file_path text metadata
    ttl_hours source store_source w w' :
  CacheManager.save_to_cache env file_hash file_path text metadata ttl_hours
    source store_source w = (Returned true, w') ->
  get_item_fault env (clock w') file_hash = None ->
  exists item,
    fst (CacheManager.get_cached env file_hash w') = Returned (Some item)
    /\ fst (CacheManager.check_exists env file_hash w') = Returned true
    /\ e_file_hash item = file_hash
    /\ e_file_path item = file_path
    /\ e_documentation item = text
    /\ e_metadata item = metadata
    /\ e_created_at item = utcnow_isoformat env (clock w)
    /\ e_ttl item = (time_time env (clock w) + ttl_hours * 3600)%Z
    /\ (forall other, other <> file_hash ->
        table w' !! other = table w !! other).
Proof.
  rewrite save_to_cache_eq. cbn zeta.
  destruct (put_item_fault env (clock w) _); [discriminate|].
  intros [= <-] Hread. cbn in Hread.
  rewrite get_cached_eq, check_exists_eq. cbn. rewrite Hread.
  rewrite lookup_insert_eq. eexists. split; [reflexivity|].
  repeat split. intros other Hother. by rewrite lookup_insert_ne.
Qed.

Lemma save_then_lookup_round_trip_witness :
  exists item,
    fst (CacheManager.get_cached Toy.env "k"
           (snd (CacheManager.save_to_cache Toy.env "k" "p" "d" Toy.metadata0
                   24 (Some "abc") true Toy.warm)))
    = Returned (Some item)
    /\ e_documentation item = "d"
    /\ e_ttl item = 1700086400%Z.
Proof.
  destruct (save_then_lookup_round_trip Toy.env "k" "p" "d" Toy.metadata0
              24%Z (Some "abc") true Toy.warm
              (snd (CacheManager.save_to_cache Toy.env "k" "p" "d"
                      Toy.metadata0 24 (Some "abc") true Toy.warm)))
    as (item & Hget & _ & _ & _ & Hdoc & _ & _ & Httl & _).
  - vm_compute. reflexivity.
  - reflexivity.
  - exists item. split; [exact Hget|]. split; [exact Hdoc|]. exact Httl.
Defined.

(** X2.  [check_exists] never raises and leaves the table alone; it answers
    [True] exactly when [get_cached] would return an item, that is when the
    table holds the key and the read does not fault. *)
Theorem check_exists_agrees_with_lookup env key w :
  exists answer,
    CacheManager.check_exists env key w = (Returned answer, tick w)
    /\ (answer = true <->
        exists item,
          fst (CacheManager.get_cached env key w) = Returned (Some item))
    /\ (answer = true <->
        get_item_fault env (clock w) key = None
        /\ is_Some (table w !! key)).
Proof.
  rewrite check_exists_eq, get_cached_eq. eexists. split; [reflexivity|].
  destruct (get_item_fault env (clock w) key) as [msg|]; cbn.
  - split; split; try discriminate.
    + intros [item [=]].
    + intros [[=] _].
  - destruct (table w !! key) as [item|]; cbn; split; split;
      try discriminate; eauto.
    + intros [item [=]].
    + intros [_ [item [=]]].
Qed.

(** X3.  [delete_from_cache] never raises.  A faulting deletion is reported
    as [False] and leaves the table as it was.  Otherwise it reports [True],
    a lookup of the key then finds nothing, every other key is as it was,
    and deleting a key the table does not hold changes nothing. *)
Theorem delete_from_cache_removes_the_entry delete_item_fault env key w :
  exists ok w',
    CacheAdmin.delete_from_cache delete_item_fault key w = (Returned ok, w')
    /\ generator_calls w' = generator_calls w
    /\ (forall msg, delete_item_fault (clock w) key = Some msg ->
        ok = false /\ table w' = table w)
    /\ (delete_item_fault (clock w) key = None ->
        ok = true
        /\ fst (CacheManager.get_cached env key w') = Returned None
        /\ fst (CacheManager.check_exists env key w') = Returned false
        /\ (forall other, other <> key ->
            table w' !! other = table w !! other)
        /\ (table w !! key = None -> table w' = table w)).
Proof.
  unfold CacheAdmin.delete_from_cache, CacheAdmin.table_delete_item,
    try_catch, bind, ret, tick.
  destruct (delete_item_fault (clock w) key) as [msg|]; cbn.
  - do 2 eexists. split; [reflexivity|]. split; [reflexivity|].
    split; [by intros|discriminate].
  - do 2 eexists. split; [reflexivity|]. split; [reflexivity|].
    split; [discriminate|]. intros _.
    rewrite get_cached_eq, check_exists_eq. cbn. rewrite lookup_delete_eq.
    split; [reflexivity|].
    split; [by destruct (get_item_fault env (S (clock w)) key)|].
    split; [by destruct (get_item_fault env (S (clock w)) key)|].
    split; [intros other Hother; by rewrite lookup_delete_ne|].
    intros Hnone. by apply delete_id.
Qed.

(** Saving an entry and deleting it again leaves a table without it. *)
Lemma delete_from_cache_removes_the_entry_witness :
  let saved :=
    snd (CacheManager.save_to_cache Toy.env "k" "p" "d" Toy.metadata0 24
           None false Toy.cold) in
  table saved !! "k" <> None
  /\ exists w',
      CacheAdmin.delete_from_cache ToyMore.delete_ok "k" saved
      = (Returned true, w')
      /\ fst (CacheManager.get_cached Toy.env "k" w') = Returned None.
Proof.
  cbn zeta. split; [vm_compute; discriminate|].
  destruct (delete_from_cache_removes_the_entry ToyMore.delete_ok Toy.env "k"
              (snd (CacheManager.save_to_cache Toy.env "k" "p" "d"
                      Toy.metadata0 24 None false Toy.cold)))
    as (ok & w' & Hrun & _ & _ & Hok).
  destruct (Hok eq_refl) as (-> & Hget & _).
  exists w'. split; [exact Hrun | exact Hget].
Defined.

(* ===================================================================== *)
(** ** More on the per-chunk job *)
(* ===================================================================== *)

(** The miss branch of the job, as equations. *)
Lemma job_miss_eq env self file_path chunk w text metrics :
  fst (CacheManager.get_cached env
         (ChunkProcessor._calculate_chunk_hash env file_path chunk) w)
  = Returned None ->
  generate_documentation env (S (clock w)) (content chunk)
    (chunk_label file_path chunk)
    (ChunkProcessor._build_chunk_context file_path chunk)
  = Returned (text, metrics) ->
  let w1 :=
    mkWorld (table w) (S (S (clock w)))
      (generator_calls w
       ++ [(content chunk, chunk_label file_path chunk,
            ChunkProcessor._build_chunk_context file_path chunk)]) in
  ChunkProcessor._process_single_chunk env self file_path chunk w
  = (Returned
       (mkChunkResult (chunk_id chunk) text (cm_total_cost metrics)
          (inject_Z (cm_total_tokens metrics)) false
          (Some (content chunk)) None),
     snd (CacheManager.save_to_cache env
            (ChunkProcessor._calculate_chunk_hash env file_path chunk)
            (file_path +:+ "#chunk" +:+ PyStr.str_int (chunk_id chunk))
            text (chunk_metadata chunk metrics) 24 (Some (content chunk))
            (store_source_code self) w1)).
Proof.
  intros Hlook Hgen. cbn zeta.
  unfold ChunkProcessor._process_single_chunk, bind at 1.
  rewrite get_cached_eq in *. cbn in Hlook. injection Hlook as Hlook.
  rewrite Hlook.
  unfold bind at 1, ChunkProcessor.claude_generate. cbn [clock tick].
  unfold chunk_label in Hgen. rewrite Hgen.
  unfold bind, chunk_metadata.
  destruct (CacheManager.save_to_cache _ _ _ _ _ _ _ _ _) as [[ok|msg] w2]
    eqn:Hsave; cbn.
  - reflexivity.
  - rewrite save_to_cache_eq in Hsave. cbn zeta in Hsave.
    destruct (put_item_fault _ _ _); discriminate.
Qed.

(** X4.  On a cache miss with an answering generator the job calls the
    generator exactly once, with the chunk text, the label
    [<path> (Chunk <ordinal + 1>)], no analysis and the chunk context, and
    returns the generated text with the generator's cost and tokens,
    [cached] false and the chunk text as source.  It then hands one item to
    [put_item]: the chunk's key, the path [<path>#chunk<ordinal>], the
    generated text, the cost, tokens, ordinal and line range as metadata, a
    lifetime of 24 hours, and the chunk text as source exactly when the
    processor stores sources and the text is not empty.  When that write
    does not fault, the table afterwards is the table before with this item
    under the chunk's key; when it faults, the table is as before; the
    result is the same in both cases. *)
Theorem cache_miss_generates_and_stores env self file_path chunk w text
    metrics :
  fst (CacheManager.get_cached env
         (ChunkProcessor._calculate_chunk_hash env file_path chunk) w)
  = Returned None ->
  generate_documentation env (S (clock w)) (content chunk)
    (file_path +:+ " (Chunk " +:+ PyStr.str_int (chunk_id chunk + 1) +:+ ")")
    (ChunkProcessor._build_chunk_context file_path chunk)
  = Returned (text, metrics) ->
  let key := ChunkProcessor._calculate_chunk_hash env file_path chunk in
  let item :=
    mkCacheEntry key
      (file_path +:+ "#chunk" +:+ PyStr.str_int (chunk_id chunk))
      text
      (mkMetadata (Some (cm_total_cost metrics))
                  (Some (inject_Z (cm_total_tokens metrics)))
                  (Some (chunk_id chunk))
                  (Some (PyStr.str_int (start_line chunk) +:+ "-"
                         +:+ PyStr.str_int (end_line chunk))))
      (utcnow_isoformat env (S (S (clock w))))
      (time_time env (S (S (clock w))) + 86400)
      (if store_source_code self && PyStr.truthy (content chunk)
       then Some (content chunk) else None) in
  exists w',
    ChunkProcessor._process_single_chunk env self file_path chunk w
    = (Returned
         (mkChunkResult (chunk_id chunk) text (cm_total_cost metrics)
            (inject_Z (cm_total_tokens metrics)) false
            (Some (content chunk)) None),
       w')
    /\ generator_calls w'
       = generator_calls w
         ++ [(content chunk,
              file_path +:+ " (Chunk " +:+ PyStr.str_int (chunk_id chunk + 1)
              +:+ ")",
              ChunkProcessor._build_chunk_context file_path chunk)]
    /\ (put_item_fault env (S (S (clock w))) item = None ->
        table w' = <[key := item]> (table w)
        /\ table w' !! key = Some item)
    /\ (forall msg,
          put_item_fault env (S (S (clock w))) item = Some msg ->
          table w' = table w).
Proof.
  intros Hlook Hgen. cbn zeta.
  rewrite (job_miss_eq env self file_path chunk w text metrics Hlook Hgen).
  cbn zeta. rewrite save_to_cache_eq. cbn zeta.
  unfold built_item, chunk_metadata. cbn [clock].
  destruct (put_item_fault env _ _) as [msg|]; cbn.
  - eexists. split; [reflexivity|]. split; [reflexivity|].
    split; [discriminate|]. by intros.
  - eexists. split; [reflexivity|]. split; [reflexivity|].
    split; [|discriminate]. intros _.
    split; [reflexivity|]. apply lookup_insert_eq.
Qed.

Lemma cache_miss_generates_and_stores_witness :
  exists w' item,
    ChunkProcessor._process_single_chunk Toy.env Toy.processor "f.py"
      Toy.chunkB Toy.warm
    = (Returned
         (mkChunkResult 1 ("# Title" +:+ String PyStr.nl "Docs of B")
            (1 # 100) 10 false (Some "B") None),
       w')
    /\ length (generator_calls w') = 1%nat
    /\ table w' !! Toy.digest "f.py::1::B" = Some item
    /\ e_documentation item = "# Title" +:+ String PyStr.nl "Docs of B"
    /\ e_source_code item = Some "B".
Proof.
  destruct (cache_miss_generates_and_stores Toy.env Toy.processor "f.py"
              Toy.chunkB Toy.warm
              ("# Title" +:+ String PyStr.nl "Docs of B")
              (mkCostMetrics (1 # 100) 10))
    as (w' & Hjob & Hcalls & Hstored & _).
  - vm_compute. reflexivity.
  - vm_compute. reflexivity.
  - destruct (Hstored eq_refl) as [_ Hitem].
    exists w'. eexists. split; [exact Hjob|].
    split; [rewrite Hcalls; reflexivity|].
    split; [exact Hitem|]. split; reflexivity.
Defined.

(** What each kind of job does to the generator log and to the table. *)
Lemma job_footprint env self file_path chunk w outcome w' :
  ChunkProcessor._process_single_chunk env self file_path chunk w
  = (outcome, w') ->
  (length (generator_calls w')
   + (match outcome with
      | Returned r => if cached r then 1 else 0
      | Raised _ => 0
      end)
   = S (length (generator_calls w)))%nat
  /\ (exists calls, generator_calls w' = generator_calls w ++ calls)
  /\ (forall key,
        key <> ChunkProcessor._calculate_chunk_hash env file_path chunk ->
        table w' !! key = table w !! key)
  /\ (forall key, is_Some (table w !! key) -> is_Some (table w' !! key))
  /\ (forall r, outcome = Returned r -> cached r = true -> cost r = 0%Q).
Proof.
  intros Hjob. pose proof (job_cases env self file_path chunk w) as Hcase.
  rewrite Hjob in Hcase.
  inversion Hcase as [item Hlook | msg ? ? ? Hlook
                     | text metrics call ? Hlook Hcalls Hother Hkey Hstored];
    subst; cbn.
  - repeat split; try done.
    + lia.
    + exists []. by rewrite app_nil_r.
    + by intros r [= <-] _.
  - repeat split; try done.
    + rewrite length_app. cbn. lia.
    + eauto.
  - repeat split.
    + rewrite Hcalls, length_app. cbn. lia.
    + eauto.
    + exact Hother.
    + intros key Hsome.
      destruct (decide
        (key = ChunkProcessor._calculate_chunk_hash env file_path chunk))
        as [->|Hne]; [|by rewrite Hother].
      destruct Hkey as [-> | (item & -> & _)]; eauto.
    + intros r [= <-]. cbn. discriminate.
Qed.

Lemma run_jobs_footprint env self file_path schedule w :
  let completed :=
    fst (ChunkProcessor.run_jobs env self file_path schedule w) in
  let w' := snd (ChunkProcessor.run_jobs env self file_path schedule w) in
  (length (generator_calls w')
   + length (List.filter cached (returned_results completed))
   = length (generator_calls w) + length schedule)%nat
  /\ (exists calls, generator_calls w' = generator_calls w ++ calls)
  /\ (forall key,
        key ∉ map (ChunkProcessor._calculate_chunk_hash env file_path)
                schedule ->
        table w' !! key = table w !! key)
  /\ (forall key, is_Some (table w !! key) -> is_Some (table w' !! key))
  /\ (forall r, r ∈ returned_results completed -> cached r = true ->
        cost r = 0%Q).
Proof.
  cbn zeta. revert w. induction schedule as [|c rest IH]; intros w; cbn.
  - split; [lia|]. split; [exists []; by rewrite app_nil_r|].
    split; [done|]. split; [done|]. intros r Hr. inversion Hr.
  - destruct (ChunkProcessor._process_single_chunk _ _ _ _ _)
      as [o w1] eqn:Hjob.
    destruct (job_footprint _ _ _ _ _ _ _ Hjob)
      as (Hn1 & [calls1 Hc1] & Hk1 & Hs1 & Hz1).
    destruct (IH w1) as (Hn2 & [calls2 Hc2] & Hk2 & Hs2 & Hz2).
    destruct (ChunkProcessor.run_jobs _ _ _ _ _) as [os w2]. cbn in *.
    split; [|split; [|split; [|split]]].
    + destruct o as [r|e]; cbn; [destruct (cached r); cbn|]; lia.
    + exists (calls1 ++ calls2). by rewrite Hc2, Hc1, app_assoc.
    + intros key Hkey. apply not_elem_of_cons in Hkey as [Hne Hkey].
      by rewrite Hk2, Hk1.
    + intros key Hsome. by apply Hs2, Hs1.
    + intros r Hr. destruct o as [r0|e]; [|by apply Hz2].
      apply elem_of_cons in Hr as [->|Hr]; [by apply Hz1 | by apply Hz2].
Qed.

(** X5.  In one invocation the generator is called exactly once for every
    chunk that is not served from the cache: the generator log grows by
    [total_chunks - cache_hits] calls, and what it held before stays in
    front. *)
Theorem generator_called_once_per_uncached_chunk env self file_path chunks
    schedule w :
  schedule ≡ₚ chunks ->
  exists doc m w' calls,
    ChunkProcessor.process_chunks env self file_path chunks schedule w
    = (Returned (doc, m), w')
    /\ generator_calls w' = generator_calls w ++ calls
    /\ (length calls + cache_hits m)%nat = total_chunks m.
Proof.
  intros Hperm. apply Permutation_length in Hperm.
  rewrite (process_chunks_eq _ _ _ _ _ _ Hperm).
  destruct (run_jobs_footprint env self file_path schedule w)
    as (Hn & [calls Hcalls] & _).
  do 3 eexists. exists calls. split; [reflexivity|]. split; [exact Hcalls|].
  cbn. rewrite collect_hits. cbn. rewrite Hcalls, length_app in Hn. lia.
Qed.

Lemma generator_called_once_per_uncached_chunk_witness :
  exists doc m w' calls,
    ChunkProcessor.process_chunks Toy.env Toy.processor "f.py"
      [Toy.chunkA; Toy.chunkB] [Toy.chunkB; Toy.chunkA] Toy.warm
    = (Returned (doc, m), w')
    /\ generator_calls w' = generator_calls Toy.warm ++ calls
    /\ (length calls + cache_hits m)%nat = total_chunks m.
Proof.
  apply (generator_called_once_per_uncached_chunk Toy.env Toy.processor
           "f.py" [Toy.chunkA; Toy.chunkB] [Toy.chunkB; Toy.chunkA] Toy.warm).
  apply perm_swap.
Defined.

(** X6.  An invocation writes to the table under the keys of its chunks
    only, and removes nothing: every other key holds what it held, and a key
    that held an entry still holds one. *)
Theorem process_chunks_writes_only_chunk_keys env self file_path chunks
    schedule w :
  schedule ≡ₚ chunks ->
  exists doc m w',
    ChunkProcessor.process_chunks env self file_path chunks schedule w
    = (Returned (doc, m), w')
    /\ (forall key,
          key ∉ map (ChunkProcessor._calculate_chunk_hash env file_path)
                  chunks ->
          table w' !! key = table w !! key)
    /\ (forall key, is_Some (table w !! key) -> is_Some (table w' !! key)).
Proof.
  intros Hperm.
  rewrite (process_chunks_eq _ _ _ _ _ _ (Permutation_length Hperm)).
  destruct (run_jobs_footprint env self file_path schedule w)
    as (_ & _ & Hkeys & Hkept & _).
  do 3 eexists. split; [reflexivity|]. split; [|exact Hkept].
  intros key Hkey. apply Hkeys. intros Hin. apply Hkey.
  by rewrite <- (Permutation_map _ Hperm).
Qed.

Lemma process_chunks_writes_only_chunk_keys_witness :
  exists doc m w',
    ChunkProcessor.process_chunks Toy.env Toy.processor "f.py"
      [Toy.chunkB; Toy.chunkC] [Toy.chunkC; Toy.chunkB] Toy.warm
    = (Returned (doc, m), w')
    /\ table w' !! Toy.digest "f.py::0::A" = Some Toy.entryA.
Proof.
  destruct (process_chunks_writes_only_chunk_keys Toy.env Toy.processor
              "f.py" [Toy.chunkB; Toy.chunkC] [Toy.chunkC; Toy.chunkB]
              Toy.warm)
    as (doc & m & w' & Hrun & Hkeys & _).
  - apply perm_swap.
  - exists doc, m, w'. split; [exact Hrun|].
    rewrite Hkeys; [vm_compute; reflexivity|].
    vm_compute. intros Hin.
    apply elem_of_cons in Hin as [Heq|Hin]; [discriminate|].
    apply elem_of_cons in Hin as [Heq|Hin]; [discriminate|].
    inversion Hin.
Defined.

(* ===================================================================== *)
(** ** More on merging *)
(* ===================================================================== *)

Lemma merge_loop_raises chunks i results :
  (i <= length chunks)%nat ->
  (length chunks < i + length results)%nat ->
  ChunkProcessor.merge_loop chunks i results
  = Raised "list index out of range".
Proof.
  revert i. induction results as [|r rest IH]; intros i Hi Hlen; cbn in *;
    [lia|].
  destruct (chunks !! i) as [chunk|] eqn:Hchunk; [|reflexivity].
  apply lookup_lt_Some in Hchunk. rewrite IH by lia. reflexivity.
Qed.

(** X7.  [_merge_chunk_documentation] pairs the results with the chunks by
    position.  With no more results than chunks it returns the header
    followed by one section per result, headed by the chunk at the same
    position (chunks beyond the results get no section); with more results
    than chunks it raises [IndexError]. *)
Theorem merge_pairs_results_with_chunks_by_position file_path results chunks :
  ((length results <= length chunks)%nat ->
   ChunkProcessor._merge_chunk_documentation file_path results chunks
   = Returned
       (PyStr.join (String PyStr.nl "")
          (ChunkProcessor.header_parts file_path chunks
           ++ concat (zip_with ChunkProcessor.section_parts chunks results))))
  /\ ((length chunks < length results)%nat ->
      ChunkProcessor._merge_chunk_documentation file_path results chunks
      = Raised "list index out of range").
Proof.
  unfold ChunkProcessor._merge_chunk_documentation. split; intros Hlen.
  - by rewrite merge_loop_eq.
  - rewrite merge_loop_raises; [reflexivity | lia | exact Hlen].
Qed.

Lemma merge_pairs_results_with_chunks_by_position_witness :
  ChunkProcessor._merge_chunk_documentation "f.py"
    [ChunkProcessor.degraded Toy.chunkA "x";
     ChunkProcessor.degraded Toy.chunkB "y"] [Toy.chunkA]
  = Raised "list index out of range".
Proof.
  apply (proj2 (merge_pairs_results_with_chunks_by_position "f.py"
                  [ChunkProcessor.degraded Toy.chunkA "x";
                   ChunkProcessor.degraded Toy.chunkB "y"] [Toy.chunkA])).
  cbn. lia.
Defined.

Lemma split_nl_not_nil s : PyStr.split_nl s <> [].
Proof.
  destruct s as [|c s]; cbn; [discriminate|].
  destruct (Ascii.eqb c PyStr.nl); [discriminate|].
  destruct (PyStr.split_nl s); discriminate.
Qed.

Lemma join_cons sep p q rest :
  PyStr.join sep (p :: q :: rest) = p +:+ sep +:+ PyStr.join sep (q :: rest).
Proof. reflexivity. Qed.

(** ['\n'.join(s.split('\n')) == s]. *)
Lemma join_split_nl s :
  PyStr.join (String PyStr.nl "") (PyStr.split_nl s) = s.
Proof.
  induction s as [|c s IH]; [reflexivity|]. cbn [PyStr.split_nl].
  pose proof (split_nl_not_nil s) as Hne.
  destruct (Ascii.eqb_spec c PyStr.nl) as [->|Hc].
  - destruct (PyStr.split_nl s) as [|l ls]; [done|].
    rewrite join_cons, IH. reflexivity.
  - destruct (PyStr.split_nl s) as [|l [|l' ls]]; [done| |].
    + cbn in *. by rewrite IH.
    + rewrite join_cons in *. rewrite <- IH. reflexivity.
Qed.

Lemma split_nl_no_newline s :
  no_newline s = true -> PyStr.split_nl s = [s].
Proof.
  induction s as [|c s IH]; cbn; [reflexivity|].
  destruct (Ascii.eqb c PyStr.nl); cbn; [discriminate|].
  intros Hs. by rewrite (IH Hs).
Qed.

Lemma split_nl_first_line a b :
  no_newline a = true ->
  PyStr.split_nl (a +:+ String PyStr.nl b) = a :: PyStr.split_nl b.
Proof.
  induction a as [|c a IH]; cbn.
  - intros _. by rewrite Ascii.eqb_refl.
  - destruct (Ascii.eqb c PyStr.nl); cbn; [discriminate|].
    intros Ha. by rewrite (IH Ha).
Qed.

(** A text starts with [# ] exactly when its first line does. *)
Lemma startswith_title_first_line s :
  PyStr.startswith "# " (hd "" (PyStr.split_nl s)) = PyStr.startswith "# " s.
Proof.
  unfold PyStr.startswith.
  destruct s as [|c1 s1]; [reflexivity|]. cbn [PyStr.split_nl].
  destruct (Ascii.eqb_spec c1 PyStr.nl) as [->|H1]; [reflexivity|].
  pose proof (split_nl_not_nil s1) as Hne.
  destruct (PyStr.split_nl s1) as [|l ls] eqn:Hs1; [done|].
  cbn [hd String.prefix].
  destruct (ascii_dec "#" c1); [|reflexivity].
  destruct s1 as [|c2 s2]; cbn in Hs1.
  - by injection Hs1 as <- _.
  - destruct (Ascii.eqb_spec c2 PyStr.nl) as [->|H2].
    + by injection Hs1 as <- _.
    + assert (Hany : forall x, String.prefix "" x = true) by (by intros []).
      destruct (PyStr.split_nl s2) as [|l2 ls2]; injection Hs1 as <- _;
        cbn [String.prefix]; destruct (ascii_dec " " c2);
        rewrite ?Hany; reflexivity.
Qed.

Lemma strip_title_plain doc :
  PyStr.startswith "# " doc = false ->
  ChunkProcessor.strip_title doc = PyStr.strip doc.
Proof.
  unfold ChunkProcessor.strip_title. intros Hdoc.
  pose proof (startswith_title_first_line doc) as Hfirst.
  pose proof (join_split_nl doc) as Hjoin.
  destruct (PyStr.split_nl doc) as [|first rest]; [by rewrite Hjoin|].
  cbn [hd] in Hfirst. rewrite Hfirst, Hdoc. by rewrite Hjoin.
Qed.

(** X8.  [strip_title], the cleaning of a chunk's documentation in the
    merge, drops the first line when that line starts with [# ] and then
    strips the white space at both ends; nothing else goes.  So a text that
    does not start with [# ] is only stripped; of a title line followed by
    more text only that text is kept, stripped, whatever it holds (further
    titles too); and a text that is a title line alone becomes empty. *)
Theorem strip_title_drops_only_a_leading_title :
  (forall doc,
      PyStr.startswith "# " doc = false ->
      ChunkProcessor.strip_title doc = PyStr.strip doc)
  /\ (forall title rest,
      PyStr.startswith "# " title = true -> no_newline title = true ->
      ChunkProcessor.strip_title (title +:+ String PyStr.nl rest)
      = PyStr.strip rest)
  /\ (forall title,
      PyStr.startswith "# " title = true -> no_newline title = true ->
      ChunkProcessor.strip_title title = "").
Proof.
  split; [exact strip_title_plain|].
  unfold ChunkProcessor.strip_title. split.
  - intros title rest Htitle Hline.
    rewrite (split_nl_first_line _ _ Hline), Htitle.
    by rewrite join_split_nl.
  - intros title Htitle Hline.
    rewrite (split_nl_no_newline _ Hline), Htitle. reflexivity.
Qed.

Lemma strip_title_drops_only_a_leading_title_witness :
  ChunkProcessor.strip_title
    ("# Module" +:+ String PyStr.nl ("# Usage" +:+ String PyStr.nl "call f "))
  = "# Usage" +:+ String PyStr.nl "call f".
Proof.
  destruct strip_title_drops_only_a_leading_title as (_ & Hdrop & _).
  rewrite (Hdrop "# Module"); reflexivity.
Defined.

Lemma append_not_empty s t : t <> "" -> s +:+ t <> "".
Proof. destruct s; cbn; [done|discriminate]. Qed.

Lemma rstrip_keeps_suffix s t :
  PyStr.rstrip t = t -> t <> "" -> PyStr.rstrip (s +:+ t) = s +:+ t.
Proof.
  intros Ht Hne. induction s as [|c s IH]; cbn; [exact Ht|].
  rewrite IH. pose proof (append_not_empty s t Hne) as Hst.
  by destruct (s +:+ t).
Qed.

(** X9.  The marker of a failed chunk comes through the merge untouched:
    it is no title and has no white space at its ends, so the section of a
    degraded result carries the marker text as it is, whatever the error
    message holds. *)
Theorem error_marker_survives_the_merge chunk e :
  ChunkProcessor.strip_title
    (documentation (ChunkProcessor.degraded chunk e))
  = "<!-- Error processing chunk " +:+ PyStr.str_int (chunk_id chunk)
    +:+ ": " +:+ e +:+ " -->"
  /\ In ("<!-- Error processing chunk " +:+ PyStr.str_int (chunk_id chunk)
         +:+ ": " +:+ e +:+ " -->")
       (ChunkProcessor.section_parts chunk
          (ChunkProcessor.degraded chunk e)).
Proof.
  assert (Hstrip :
    ChunkProcessor.strip_title
      (documentation (ChunkProcessor.degraded chunk e))
    = "<!-- Error processing chunk " +:+ PyStr.str_int (chunk_id chunk)
      +:+ ": " +:+ e +:+ " -->").
  { rewrite strip_title_plain by reflexivity.
    cbn [documentation ChunkProcessor.degraded].
    unfold PyStr.strip.
    assert (Hend : forall s, PyStr.rstrip (s +:+ " -->") = s +:+ " -->"
                             /\ s +:+ " -->" <> "").
    { intros s. split; [by apply rstrip_keeps_suffix|].
      by apply append_not_empty. }
    assert (Hl : PyStr.lstrip
                   ("<!-- Error processing chunk "
                    +:+ PyStr.str_int (chunk_id chunk) +:+ ": " +:+ e
                    +:+ " -->")
                 = "<!-- Error processing chunk "
                   +:+ PyStr.str_int (chunk_id chunk) +:+ ": " +:+ e
                   +:+ " -->") by reflexivity.
    rewrite Hl.
    destruct (Hend e) as [He1 He2].
    apply rstrip_keeps_suffix; [|by apply append_not_empty].
    apply rstrip_keeps_suffix; [|by apply append_not_empty].
    apply rstrip_keeps_suffix; [exact He1 | exact He2]. }
  split; [exact Hstrip|].
  unfold ChunkProcessor.section_parts. rewrite Hstrip.
  apply in_or_app. right. apply in_or_app. right. by left.
Qed.

(* ===================================================================== *)
(** ** More on the metrics *)
(* ===================================================================== *)

Lemma hit_rate_bounds hits (chunks : list CodeChunk) :
  (hits <= length chunks)%nat ->
  (0 <= ChunkProcessor.hit_rate hits chunks)%Q
  /\ (ChunkProcessor.hit_rate hits chunks <= 100)%Q
  /\ ((ChunkProcessor.hit_rate hits chunks == 100)%Q <->
      chunks <> [] /\ hits = length chunks).
Proof.
  intros Hle. unfold ChunkProcessor.hit_rate.
  destruct chunks as [|c chunks].
  - repeat split; try done. intros [Hne _]. done.
  - set (n := length (c :: chunks)) in *.
    assert (Hn : (0 < Z.of_nat n)%Z) by (subst n; cbn [length]; lia).
    destruct (Z.of_nat n) as [|p|p] eqn:Hp; try lia.
    assert (Hh : (0 <= Z.of_nat hits <= Z.pos p)%Z) by lia.
    unfold Qle, Qeq, Qdiv, Qmult, Qinv, inject_Z. cbn.
    rewrite Pos.mul_1_l, Pos.mul_1_r. subst n. cbn [length] in *.
    split; [lia|]. split; [lia|]. split.
    + intros Heq. split; [done|]. lia.
    + intros [_ Heq]. lia.
Qed.

(** X10.  The reported hit rate is a percentage: it lies between 0 and 100,
    the hit count never exceeds the chunk count, and the rate is 100
    exactly when the chunk list is not empty and every chunk was served
    from the cache. *)
Theorem hit_rate_is_between_0_and_100 env self file_path chunks schedule w :
  schedule ≡ₚ chunks ->
  exists doc m w',
    ChunkProcessor.process_chunks env self file_path chunks schedule w
    = (Returned (doc, m), w')
    /\ (cache_hits m <= total_chunks m)%nat
    /\ (0 <= cache_hit_rate m)%Q
    /\ (cache_hit_rate m <= 100)%Q
    /\ ((cache_hit_rate m == 100)%Q <->
        chunks <> [] /\ cache_hits m = total_chunks m).
Proof.
  intros Hperm. apply Permutation_length in Hperm.
  rewrite (process_chunks_eq _ _ _ _ _ _ Hperm). do 3 eexists.
  split; [reflexivity|]. cbn.
  set (completed := fst (ChunkProcessor.run_jobs _ _ _ _ _)).
  assert (Hle : (ChunkProcessor.acc_hits
                   (fold_left ChunkProcessor.collect completed
                      ChunkProcessor.collected0) <= length chunks)%nat).
  { rewrite collect_hits. cbn.
    pose proof (filter_split (returned_results completed)) as Hsplit.
    pose proof (proj1 (returned_results_length completed)) as Hret.
    unfold completed in Hret. rewrite run_jobs_length in Hret.
    fold completed in Hret. lia. }
  split; [exact Hle|]. by apply hit_rate_bounds.
Qed.

Lemma hit_rate_is_between_0_and_100_witness :
  exists doc m w',
    ChunkProcessor.process_chunks Toy.env Toy.processor "f.py"
      [Toy.chunkA; Toy.chunkB] [Toy.chunkB; Toy.chunkA] Toy.warm
    = (Returned (doc, m), w')
    /\ (0 <= cache_hit_rate m)%Q /\ (cache_hit_rate m <= 100)%Q.
Proof.
  destruct (hit_rate_is_between_0_and_100 Toy.env Toy.processor "f.py"
              [Toy.chunkA; Toy.chunkB] [Toy.chunkB; Toy.chunkA] Toy.warm)
    as (doc & m & w' & Hrun & _ & Hlow & Hhigh & _).
  - apply perm_swap.
  - exists doc, m, w'. split; [exact Hrun|]. split; [exact Hlow|exact Hhigh].
Defined.

Lemma sum_cost_uncached (l : list ChunkResult) :
  (forall r, r ∈ l -> cached r = true -> cost r = 0%Q) ->
  sum_Q (map cost l)
  == sum_Q (map cost (List.filter (fun r => negb (cached r)) l)).
Proof.
  unfold sum_Q. induction l as [|r l IH]; intros Hfree; cbn; [lra|].
  assert (Hl : forall r', r' ∈ l -> cached r' = true -> cost r' = 0%Q)
    by (intros r' Hr'; apply Hfree; by right).
  specialize (IH Hl). destruct (cached r) eqn:Hr; cbn.
  - rewrite (Hfree r) by (done || left). lra.
  - lra.
Qed.

(** X11.  Chunks served from the cache are free: every result that comes
    from the cache has cost zero, so the reported total cost is the sum of
    the costs of the chunks that were generated in this invocation. *)
Theorem cached_chunks_add_no_cost env self file_path chunks schedule w :
  schedule ≡ₚ chunks ->
  exists doc m w',
    ChunkProcessor.process_chunks env self file_path chunks schedule w
    = (Returned (doc, m), w')
    /\ let completed :=
         fst (ChunkProcessor.run_jobs env self file_path schedule w) in
       (forall r, r ∈ map result_of completed -> cached r = true ->
                  cost r = 0%Q)
       /\ total_cost m
          == sum_Q (map cost
                      (List.filter (fun r => negb (cached r))
                         (returned_results completed))).
Proof.
  intros Hperm. apply Permutation_length in Hperm.
  rewrite (process_chunks_eq _ _ _ _ _ _ Hperm). do 3 eexists.
  split; [reflexivity|]. cbn.
  destruct (run_jobs_footprint env self file_path schedule w)
    as (_ & _ & _ & _ & Hfree). cbn zeta in Hfree.
  set (completed := fst (ChunkProcessor.run_jobs _ _ _ _ _)) in *.
  split.
  - intros r Hr Hc.
    apply list_elem_of_In, in_map_iff in Hr as ([c o] & Hres & Hin).
    destruct o as [r'|e]; cbn in Hres; subst r; [|discriminate].
    apply Hfree; [|exact Hc]. clear -Hin.
    induction completed as [|[c' [r0|e0]] rest IH]; cbn in *; [done| |].
    + destruct Hin as [[= _ ->]|Hin]; [left | right; by apply IH].
    + destruct Hin as [[=]|Hin]. by apply IH.
  - rewrite collect_cost. cbn. rewrite <- sum_cost_uncached by exact Hfree.
    lra.
Qed.

Lemma cached_chunks_add_no_cost_witness :
  exists doc m w',
    ChunkProcessor.process_chunks Toy.env Toy.processor "f.py"
      [Toy.chunkA; Toy.chunkB] [Toy.chunkB; Toy.chunkA] Toy.warm
    = (Returned (doc, m), w')
    /\ total_cost m == 1 # 100.
Proof.
  destruct (cached_chunks_add_no_cost Toy.env Toy.processor "f.py"
              [Toy.chunkA; Toy.chunkB] [Toy.chunkB; Toy.chunkA] Toy.warm)
    as (doc & m & w' & Hrun & _ & Hcost).
  - apply perm_swap.
  - exists doc, m, w'. split; [exact Hrun|]. rewrite Hcost.
    vm_compute. reflexivity.
Defined.

(* ===================================================================== *)
(** ** More on re-running on a warm cache *)
(* ===================================================================== *)

Lemma job_miss_raised env self file_path chunk w msg :
  fst (CacheManager.get_cached env
         (ChunkProcessor._calculate_chunk_hash env file_path chunk) w)
  = Returned None ->
  generate_documentation env (S (clock w)) (content chunk)
    (chunk_label file_path chunk)
    (ChunkProcessor._build_chunk_context file_path chunk)
  = Raised msg ->
  fst (ChunkProcessor._process_single_chunk env self file_path chunk w)
  = Raised msg.
Proof.
  intros Hlook Hgen.
  unfold ChunkProcessor._process_single_chunk, bind at 1.
  rewrite get_cached_eq in *. cbn in Hlook. injection Hlook as Hlook.
  rewrite Hlook.
  unfold bind at 1, ChunkProcessor.claude_generate. cbn [clock tick].
  unfold chunk_label in Hgen. by rewrite Hgen.
Qed.

(** With a healthy backend a job that returns leaves its token count in the
    table under the chunk's key, and a result from the cache costs
    nothing. *)
Lemma job_healthy_tokens env self file_path chunk w r w' :
  backend_healthy env ->
  ChunkProcessor._process_single_chunk env self file_path chunk w
  = (Returned r, w') ->
  cached_tokens env file_path w' chunk = Some (tokens r).
Proof.
  intros [Hget Hput] Hjob. unfold cached_tokens.
  pose proof (get_cached_eq env
    (ChunkProcessor._calculate_chunk_hash env file_path chunk) w) as Hlook.
  rewrite Hget in Hlook.
  destruct (table w !! ChunkProcessor._calculate_chunk_hash env file_path
                         chunk) as [item|] eqn:Hitem.
  - pose proof (job_cases env self file_path chunk w) as Hcase.
    rewrite Hjob in Hcase.
    inversion Hcase as [item' Hl | ? ? ? ? Hl | ? ? ? ? Hl]; subst;
      rewrite Hlook in Hl; cbn in Hl; [|discriminate..].
    injection Hl as <-. cbn. by rewrite Hitem.
  - assert (Hnone : fst (CacheManager.get_cached env
                      (ChunkProcessor._calculate_chunk_hash env file_path
                         chunk) w) = Returned None) by (by rewrite Hlook).
    destruct (generate_documentation env (S (clock w)) (content chunk)
                (chunk_label file_path chunk)
                (ChunkProcessor._build_chunk_context file_path chunk))
      as [[text metrics]|msg] eqn:Hgen.
    + rewrite (job_miss_eq env self file_path chunk w text metrics Hnone Hgen)
        in Hjob.
      cbn zeta in Hjob. rewrite save_to_cache_eq in Hjob. cbn zeta in Hjob.
      rewrite Hput in Hjob. injection Hjob as <- <-. cbn.
      by rewrite lookup_insert_eq.
    + pose proof (job_miss_raised env self file_path chunk w msg Hnone Hgen)
        as Hraised.
      rewrite Hjob in Hraised. discriminate.
Qed.

Lemma cached_tokens_mono env file_path w w' chunk n :
  table w ⊆ table w' ->
  cached_tokens env file_path w chunk = Some n ->
  cached_tokens env file_path w' chunk = Some n.
Proof.
  unfold cached_tokens. intros Hsub Hn.
  destruct (table w !! _) as [item|] eqn:Hitem; [|discriminate].
  by rewrite (lookup_weaken _ _ _ _ Hitem Hsub).
Qed.

Lemma run_jobs_healthy_tokens env self file_path schedule w :
  backend_healthy env ->
  forall chunk r,
    (chunk, Returned r)
      ∈ fst (ChunkProcessor.run_jobs env self file_path schedule w) ->
    cached_tokens env file_path
      (snd (ChunkProcessor.run_jobs env self file_path schedule w)) chunk
    = Some (tokens r).
Proof.
  intros Hhealthy. revert w.
  induction schedule as [|c rest IH]; intros w chunk r; cbn.
  - intros Hin. inversion Hin.
  - destruct (ChunkProcessor._process_single_chunk _ _ _ _ _)
      as [o w1] eqn:Hjob.
    pose proof (proj1 (run_jobs_healthy env self file_path rest w1 Hhealthy))
      as Hsub.
    specialize (IH w1 chunk r).
    destruct (ChunkProcessor.run_jobs _ _ _ _ _) as [os w2]. cbn in *.
    intros Hin. apply elem_of_cons in Hin as [[= -> <-]|Hin]; [|by apply IH].
    eapply cached_tokens_mono; [exact Hsub|].
    by eapply job_healthy_tokens.
Qed.

Lemma run_jobs_warm_tokens env self file_path schedule w :
  backend_healthy env ->
  (forall chunk, chunk ∈ schedule ->
                 is_Some (cached_text env file_path w chunk)) ->
  forall chunk outcome,
    (chunk, outcome)
      ∈ fst (ChunkProcessor.run_jobs env self file_path schedule w) ->
    exists r,
      outcome = Returned r /\ cost r = 0%Q
      /\ cached_tokens env file_path w chunk = Some (tokens r).
Proof.
  intros Hhealthy. revert w.
  induction schedule as [|c rest IH]; intros w Hwarm chunk outcome; cbn.
  - intros Hin. inversion Hin.
  - pose proof (job_cases env self file_path c w) as Hcase.
    destruct (ChunkProcessor._process_single_chunk _ _ _ _ _) as [o w1].
    assert (Hc : is_Some (cached_text env file_path w c))
      by (apply Hwarm; left).
    unfold cached_text in Hc. pose proof Hhealthy as [Hget Hput].
    inversion Hcase as [item Hlook | msg ? ? ? Hlook
                       | text metrics call ? Hlook];
      subst; rewrite get_cached_eq, Hget in Hlook; cbn in Hlook;
      injection Hlook as Hlook;
      try (rewrite Hlook in Hc; by destruct Hc).
    assert (Hrest : forall chunk, chunk ∈ rest ->
              is_Some (cached_text env file_path (tick w) chunk)).
    { intros chunk' Hin. apply Hwarm. by right. }
    specialize (IH (tick w) Hrest chunk outcome).
    destruct (ChunkProcessor.run_jobs _ _ _ _ _) as [os w2]. cbn in *.
    intros Hin. apply elem_of_cons in Hin as [[= -> ->]|Hin]; [|by apply IH].
    eexists. split; [reflexivity|]. split; [reflexivity|].
    unfold cached_tokens. by rewrite Hlook.
Qed.

Lemma sum_Q_perm (l1 l2 : list Q) : l1 ≡ₚ l2 -> sum_Q l1 == sum_Q l2.
Proof.
  unfold sum_Q. induction 1; cbn in *; lra.
Qed.

Lemma returned_results_via_fst (completed :
    list (CodeChunk * Outcome ChunkResult)) (f : ChunkResult -> Q)
    (g : CodeChunk -> Q) :
  (forall chunk outcome, (chunk, outcome) ∈ completed ->
     exists r, outcome = Returned r /\ f r = g chunk) ->
  map f (returned_results completed) = map g (map fst completed).
Proof.
  induction completed as [|[c o] rest IH]; intros Hall; cbn; [reflexivity|].
  assert (Hhead : (c, o) ∈ (c, o) :: rest) by left.
  destruct (Hall c o Hhead) as (r & -> & Hr). cbn. rewrite Hr. f_equal.
  apply IH. intros chunk outcome Hin. apply (Hall chunk). by right.
Qed.

(** X12.  Let the table answer every call and let the keys of the chunks
    differ, so that no two jobs of an invocation touch the same entry.
    After a first invocation in which every chunk job returned, a second
    invocation on the same file path and chunk list, in any order of
    completion, reports a total cost of zero and the same token total as
    the first. *)
Theorem warm_rerun_costs_nothing_and_keeps_the_token_total env self file_path
    chunks schedule1 schedule2 w0 :
  backend_healthy env ->
  NoDup (map (ChunkProcessor._calculate_chunk_hash env file_path) chunks) ->
  schedule1 ≡ₚ chunks ->
  schedule2 ≡ₚ chunks ->
  Forall (fun c => returned (snd c) = true)
    (fst (ChunkProcessor.run_jobs env self file_path schedule1 w0)) ->
  exists doc1 m1 w1 doc2 m2 w2,
    ChunkProcessor.process_chunks env self file_path chunks schedule1 w0
    = (Returned (doc1, m1), w1)
    /\ ChunkProcessor.process_chunks env self file_path chunks schedule2 w1
       = (Returned (doc2, m2), w2)
    /\ total_cost m2 == 0
    /\ total_tokens m2 == total_tokens m1.
Proof.
  intros Hhealthy _ Hperm1 Hperm2 Hreturned.
  pose proof (process_chunks_eq env self file_path chunks schedule1 w0
                (Permutation_length Hperm1)) as Hrun1.
  cbn zeta in Hrun1.
  destruct (run_jobs_healthy env self file_path schedule1 w0 Hhealthy)
    as [_ Hdoc1].
  pose proof (run_jobs_healthy_tokens env self file_path schedule1 w0
                Hhealthy) as Htok1.
  pose proof (run_jobs_schedule env self file_path schedule1 w0) as Hfst1.
  set (completed1 := fst (ChunkProcessor.run_jobs _ _ _ schedule1 w0)) in *.
  set (w1 := snd (ChunkProcessor.run_jobs _ _ _ schedule1 w0)) in *.
  assert (Hall1 : forall chunk outcome, (chunk, outcome) ∈ completed1 ->
            exists r, outcome = Returned r
                      /\ cached_text env file_path w1 chunk
                         = Some (documentation r)
                      /\ cached_tokens env file_path w1 chunk
                         = Some (tokens r)).
  { intros chunk outcome Hin. rewrite Forall_forall in Hreturned.
    pose proof (Hreturned _ Hin) as Hret. cbn in Hret.
    destruct outcome as [r|e]; [|discriminate].
    exists r. split; [reflexivity|].
    split; [by apply Hdoc1 | by apply Htok1]. }
  assert (Hwarm : forall chunk, chunk ∈ schedule2 ->
            is_Some (cached_text env file_path w1 chunk)).
  { intros chunk Hin. rewrite Hperm2, <- Hperm1, <- Hfst1 in Hin.
    apply list_elem_of_In, in_map_iff in Hin as ([c o] & Hc & Hin).
    cbn in Hc. subst c. apply list_elem_of_In in Hin.
    destruct (Hall1 _ _ Hin) as (r & _ & -> & _). eauto. }
  pose proof (run_jobs_warm_tokens env self file_path schedule2 w1 Hhealthy
                Hwarm) as Hall2.
  pose proof (process_chunks_eq env self file_path chunks schedule2 w1
                (Permutation_length Hperm2)) as Hrun2.
  cbn zeta in Hrun2.
  pose proof (run_jobs_schedule env self file_path schedule2 w1) as Hfst2.
  set (completed2 := fst (ChunkProcessor.run_jobs _ _ _ schedule2 w1)) in *.
  do 6 eexists. split; [exact Hrun1|]. split; [exact Hrun2|]. cbn.
  rewrite !collect_cost, !collect_tokens. cbn.
  set (held := fun chunk =>
         default 0%Q (cached_tokens env file_path w1 chunk)).
  assert (Ht1 : map tokens (returned_results completed1)
                = map held schedule1).
  { rewrite <- Hfst1. apply returned_results_via_fst.
    intros chunk outcome Hin. destruct (Hall1 _ _ Hin) as (r & -> & _ & Ht).
    exists r. split; [reflexivity|]. unfold held. by rewrite Ht. }
  assert (Ht2 : map tokens (returned_results completed2)
                = map held schedule2).
  { rewrite <- Hfst2. apply returned_results_via_fst.
    intros chunk outcome Hin. destruct (Hall2 _ _ Hin) as (r & -> & _ & Ht).
    exists r. split; [reflexivity|]. unfold held. by rewrite Ht. }
  assert (Hc2 : map cost (returned_results completed2)
                = map (fun _ => 0%Q) schedule2).
  { rewrite <- Hfst2. apply returned_results_via_fst.
    intros chunk outcome Hin. destruct (Hall2 _ _ Hin) as (r & -> & Hc & _).
    eauto. }
  rewrite Ht1, Ht2, Hc2. split.
  - clear. unfold sum_Q. induction schedule2 as [|c l IH]; cbn in *; lra.
  - assert (Hp : map held schedule2 ≡ₚ map held schedule1).
    { apply Permutation_map. by rewrite Hperm1, Hperm2. }
    rewrite (sum_Q_perm _ _ Hp). lra.
Qed.

Lemma warm_rerun_costs_nothing_and_keeps_the_token_total_witness :
  exists doc1 m1 w1 doc2 m2 w2,
    ChunkProcessor.process_chunks Toy.env Toy.processor "f.py"
      [Toy.chunkA; Toy.chunkB; Toy.chunkC]
      [Toy.chunkC; Toy.chunkA; Toy.chunkB] Toy.cold
    = (Returned (doc1, m1), w1)
    /\ ChunkProcessor.process_chunks Toy.env Toy.processor "f.py"
         [Toy.chunkA; Toy.chunkB; Toy.chunkC]
         [Toy.chunkB; Toy.chunkA; Toy.chunkC] w1
       = (Returned (doc2, m2), w2)
    /\ total_cost m2 == 0
    /\ total_tokens m2 == total_tokens m1.
Proof.
  apply (warm_rerun_costs_nothing_and_keeps_the_token_total Toy.env
           Toy.processor "f.py"
           [Toy.chunkA; Toy.chunkB; Toy.chunkC]
           [Toy.chunkC; Toy.chunkA; Toy.chunkB]
           [Toy.chunkB; Toy.chunkA; Toy.chunkC] Toy.cold).
  - split; intros; reflexivity.
  - exact (bool_decide_unpack
             (NoDup (map (ChunkProcessor._calculate_chunk_hash Toy.env "f.py")
                       [Toy.chunkA; Toy.chunkB; Toy.chunkC])) I).
  - etrans; [apply perm_swap|]. apply perm_skip, perm_swap.
  - apply perm_swap.
  - vm_compute. repeat constructor.
Defined.

(* ===================================================================== *)
(** ** The value converters *)
(* ===================================================================== *)

Lemma Value_deep_ind (P : PyValue.Value -> Prop) :
  P PyValue.VNone ->
  (forall b, P (PyValue.VBool b)) ->
  (forall n, P (PyValue.VInt n)) ->
  (forall s, P (PyValue.VStr s)) ->
  (forall q, P (PyValue.VFloat q)) ->
  (forall q, P (PyValue.VDecimal q)) ->
  (forall items, Forall P items -> P (PyValue.VList items)) ->
  (forall items, Forall (fun kv => P (snd kv)) items ->
                 P (PyValue.VDict items)) ->
  forall v, P v.
Proof.
  intros HNone HBool HInt HStr HFloat HDecimal HList HDict.
  fix IH 1.
  intros [ |b|n|s|q|q|items|items];
    [ exact HNone | apply HBool | apply HInt | apply HStr | apply HFloat
    | apply HDecimal | | ].
  - apply HList. induction items as [|x xs IHxs]; constructor;
      [apply IH | exact IHxs].
  - apply HDict. induction items as [|[k x] xs IHxs]; constructor;
      [apply IH | exact IHxs].
Qed.

Lemma map_fixed {A} (f : A -> A) (l : list A) :
  Forall (fun x => f x = x) l -> map f l = l.
Proof. induction 1 as [|x xs Hx _ IH]; cbn; [reflexivity|]. by rewrite Hx, IH. Qed.

Lemma existsb_none {A} (p : A -> bool) (l : list A) :
  existsb p l = false <-> Forall (fun x => p x = false) l.
Proof.
  induction l as [|x xs IH]; cbn; [split; [constructor|reflexivity]|].
  rewrite orb_false_iff, IH. split.
  - intros [Hx Hxs]. by constructor.
  - intros H. inversion H; subst. by split.
Qed.

Lemma Forall_flat_map {A B} (P : B -> Prop) (f : A -> list B) (l : list A) :
  Forall P (flat_map f l) <-> Forall (fun x => Forall P (f x)) l.
Proof.
  induction l as [|x xs IH]; cbn; [split; constructor|].
  rewrite Forall_app, IH. split.
  - intros [Hx Hxs]. by constructor.
  - intros H. inversion H; subst. by split.
Qed.

Lemma Forall_mp {A} (P Q : A -> Prop) (l : list A) :
  Forall (fun x => P x -> Q x) l -> Forall P l -> Forall Q l.
Proof.
  induction 1 as [|x xs Hx _ IH]; intros HP; [constructor|].
  inversion HP; subst. constructor; auto.
Qed.

(** X13.  [float_to_decimal] leaves no [float] anywhere inside nested
    dictionaries and lists, keeps the keys of a dictionary in their order,
    and returns a value without floats as it is; [decimal_to_float] does
    the same for [Decimal].  Reading back what was written gives the value
    again, [decimal_to_float (float_to_decimal v) = v], for every value
    without [Decimal] whose floats come back from their own decimal text --
    which is what Python promises of [float(Decimal(str(x)))].  The other
    direction is not claimed: a [Decimal] with more digits than a float
    holds is rounded by [decimal_to_float]. *)
Theorem float_to_decimal_is_undone_by_decimal_to_float decimal_of_float
    float_of_decimal v :
  PyValue.has_float (PyValue.float_to_decimal decimal_of_float v) = false
  /\ PyValue.has_decimal (PyValue.decimal_to_float float_of_decimal v)
     = false
  /\ PyValue.keys (PyValue.float_to_decimal decimal_of_float v)
     = PyValue.keys v
  /\ PyValue.keys (PyValue.decimal_to_float float_of_decimal v)
     = PyValue.keys v
  /\ (PyValue.has_float v = false ->
      PyValue.float_to_decimal decimal_of_float v = v)
  /\ (PyValue.has_decimal v = false ->
      PyValue.decimal_to_float float_of_decimal v = v)
  /\ (PyValue.has_decimal v = false ->
      Forall (fun q => float_of_decimal (decimal_of_float q) = q)
        (PyValue.floats v) ->
      PyValue.decimal_to_float float_of_decimal
        (PyValue.float_to_decimal decimal_of_float v) = v).
Proof.
  set (back := fun q => float_of_decimal (decimal_of_float q) = q).
  induction v as [ |b|n|s|q|q|items IH|items IH] using Value_deep_ind;
    cbn; try (repeat split; (reflexivity || discriminate)).
  - repeat split; try discriminate.
    intros _ Hq. inversion Hq as [|? ? Hback _]; subst.
    unfold back in Hback. by rewrite Hback.
  - rewrite !map_map.
    repeat split.
    + apply existsb_none, Forall_map.
      eapply Forall_impl; [exact IH|]. cbn. tauto.
    + apply existsb_none, Forall_map.
      eapply Forall_impl; [exact IH|]. cbn. tauto.
    + intros Hnone%existsb_none. f_equal. apply map_fixed.
      eapply Forall_mp; [|exact Hnone].
      eapply Forall_impl; [exact IH|]. cbn. tauto.
    + intros Hnone%existsb_none. f_equal. apply map_fixed.
      eapply Forall_mp; [|exact Hnone].
      eapply Forall_impl; [exact IH|]. cbn. tauto.
    + intros Hnone%existsb_none Hback%Forall_flat_map. f_equal.
      apply map_fixed.
      eapply Forall_mp; [|exact Hback].
      eapply Forall_mp; [|exact Hnone].
      eapply Forall_impl; [exact IH|]. cbn. tauto.
  - assert (Hkeys : forall g : PyValue.Value -> PyValue.Value,
              map fst (map (fun kv : string * PyValue.Value =>
                              let (k, x) := kv in (k, g x)) items)
              = map fst items).
    { intros g. rewrite map_map. apply map_ext. by intros [k x]. }
    assert (Hfix : forall g : PyValue.Value -> PyValue.Value,
              Forall (fun kv : string * PyValue.Value => g (snd kv) = snd kv)
                items ->
              map (fun kv : string * PyValue.Value =>
                     let (k, x) := kv in (k, g x)) items = items).
    { intros g Hg. apply map_fixed.
      eapply Forall_impl; [exact Hg|]. intros [k x]; cbn. by intros ->. }
    repeat split.
    + apply existsb_none, Forall_map.
      eapply Forall_impl; [exact IH|]. intros [k x]; cbn. tauto.
    + apply existsb_none, Forall_map.
      eapply Forall_impl; [exact IH|]. intros [k x]; cbn. tauto.
    + apply Hkeys.
    + apply Hkeys.
    + intros Hnone%existsb_none. f_equal. apply Hfix.
      eapply Forall_mp; [|exact Hnone].
      eapply Forall_impl; [exact IH|]. intros [k x]; cbn. tauto.
    + intros Hnone%existsb_none. f_equal. apply Hfix.
      eapply Forall_mp; [|exact Hnone].
      eapply Forall_impl; [exact IH|]. intros [k x]; cbn. tauto.
    + intros Hnone%existsb_none Hback%Forall_flat_map. f_equal.
      rewrite map_map. apply map_fixed.
      eapply Forall_mp; [|exact Hback].
      eapply Forall_mp; [|exact Hnone].
      eapply Forall_impl; [exact IH|]. intros [k x]; cbn.
      intros (_ & _ & _ & _ & _ & _ & Hx) Hd Hf. by rewrite Hx.
Qed.

(** The metadata of a whole-file entry, with a nested analysis. *)
Lemma float_to_decimal_is_undone_by_decimal_to_float_witness :
  PyValue.has_float
    (PyValue.float_to_decimal ToyMore.to_decimal ToyMore.nested) = false
  /\ PyValue.decimal_to_float ToyMore.to_float
       (PyValue.float_to_decimal ToyMore.to_decimal ToyMore.nested)
     = ToyMore.nested.
Proof.
  destruct (float_to_decimal_is_undone_by_decimal_to_float
              ToyMore.to_decimal ToyMore.to_float ToyMore.nested)
    as (Hnone & _ & _ & _ & _ & _ & Hback).
  split; [exact Hnone|]. apply Hback; [reflexivity|].
  repeat constructor.
Defined.

(* ===================================================================== *)
(** ** The request handler *)
(* ===================================================================== *)

Lemma substring_all s : String.substring 0 (String.length s) s = s.
Proof. induction s as [|c s IH]; cbn; [reflexivity|]. by rewrite IH. Qed.

Lemma substring_skip p m t :
  String.substring (String.length p) m (p +:+ t) = String.substring 0 m t.
Proof. induction p as [|c p IH]; cbn; [reflexivity|]. exact IH. Qed.

Lemma substring_split n s :
  (n <= String.length s)%nat ->
  s = String.substring 0 n s
      +:+ String.substring n (String.length s - n) s.
Proof.
  revert n. induction s as [|c s IH]; intros [|n] Hn; cbn in *; try lia.
  - reflexivity.
  - by rewrite substring_all.
  - f_equal. apply IH. lia.
Qed.

(** [s.endswith(suffix)] holds exactly when [s] is some text followed by
    [suffix]. *)
Lemma endswith_spec suffix s :
  LambdaFunction.endswith suffix s = true <-> exists p, s = p +:+ suffix.
Proof.
  unfold LambdaFunction.endswith. split.
  - intros [Hlen Heq]%andb_true_iff.
    apply Nat.leb_le in Hlen. apply String.eqb_eq in Heq.
    exists (String.substring 0 (String.length s - String.length suffix) s).
    assert (Hn : (String.length s - String.length suffix
                  <= String.length s)%nat) by lia.
    pose proof (substring_split _ s Hn) as Hsplit.
    replace (String.length s - (String.length s - String.length suffix))%nat
      with (String.length suffix) in Hsplit by lia.
    by rewrite Heq in Hsplit.
  - intros [p ->]. rewrite string_length_app. apply andb_true_iff. split.
    + apply Nat.leb_le. lia.
    + replace (String.length p + String.length suffix
               - String.length suffix)%nat with (String.length p) by lia.
      rewrite substring_skip, substring_all. apply String.eqb_refl.
Qed.

Lemma load_body_eq json_loads event w :
  LambdaFunction.load_body json_loads event w
  = (fst (LambdaFunction.load_body json_loads event w), w).
Proof.
  unfold LambdaFunction.load_body, LambdaFunction.lift, raise.
  by destruct (LambdaFunction.event_body event) as [[text|]|].
Qed.

Ltac unfold_handler :=
  unfold LambdaFunction.lambda_handler, LambdaFunction.body_get,
    LambdaFunction.path_endswith_py, LambdaFunction.lift, try_catch, bind,
    ret, raise.

(** X14.  [lambda_handler] checks the request before it does any work.
    When the body parses to an object, a [file_path] or [file_content] that
    is missing, [null] or empty is answered with status 400 and
    [Missing file_path or file_content]; a path that is a text not ending
    in [.py] is answered with status 400 and
    [Only Python files (.py) supported].  In both cases no handler runs. *)
Theorem lambda_handler_validates_the_request json_loads should_chunk
    handle_large_file handle_small_file event context w items :
  fst (LambdaFunction.load_body json_loads event w)
  = Returned (LambdaFunction.JObj items) ->
  (LambdaFunction.truthy (LambdaFunction.dict_get "file_path" items) = false
   \/ LambdaFunction.truthy (LambdaFunction.dict_get "file_content" items)
      = false ->
   LambdaFunction.lambda_handler json_loads should_chunk handle_large_file
     handle_small_file event context w
   = (Returned
        (LambdaFunction.error_response "Missing file_path or file_content"
           400), w))
  /\ (forall s,
        LambdaFunction.dict_get "file_path" items = LambdaFunction.JStr s ->
        s <> "" ->
        LambdaFunction.truthy (LambdaFunction.dict_get "file_content" items)
        = true ->
        (forall p, s <> p +:+ ".py") ->
        LambdaFunction.lambda_handler json_loads should_chunk
          handle_large_file handle_small_file event context w
        = (Returned
             (LambdaFunction.error_response
                "Only Python files (.py) supported" 400), w)).
Proof.
  intros Hload. split.
  - intros Hmissing. unfold_handler. rewrite load_body_eq, Hload.
    destruct Hmissing as [-> | ->]; [reflexivity|].
    by rewrite orb_true_r.
  - intros s Hpath Hs Hcontent Hext. unfold_handler.
    rewrite load_body_eq, Hload, Hpath, Hcontent. cbn.
    destruct s as [|c s]; [done|]. cbn.
    destruct (LambdaFunction.endswith ".py" (String c s)) eqn:Hend;
      [|reflexivity].
    apply endswith_spec in Hend as [p Hp]. by destruct (Hext p).
Qed.

Lemma lambda_handler_validates_the_request_witness :
  LambdaFunction.lambda_handler ToyMore.loads ToyMore.never_chunk
    ToyMore.large ToyMore.small (LambdaFunction.mkLambdaEvent None)
    ToyMore.context Toy.cold
  = (Returned
       (LambdaFunction.error_response "Missing file_path or file_content"
          400), Toy.cold).
Proof.
  apply (proj1 (lambda_handler_validates_the_request ToyMore.loads
                  ToyMore.never_chunk ToyMore.large ToyMore.small
                  (LambdaFunction.mkLambdaEvent None) ToyMore.context
                  Toy.cold [] eq_refl)).
  left. reflexivity.
Defined.

(** X15.  [lambda_handler] never raises: it always returns a response, and
    that response has status 400, or is the 500 response carrying the
    message of the fault, or is the response a handler returned.  A body
    that is [None], a body that does not parse, and a body that parses to
    something else than an object are each answered with status 500 and the
    message of the exception. *)
Theorem lambda_handler_never_raises json_loads should_chunk
    handle_large_file handle_small_file event context w :
  exists resp w',
    LambdaFunction.lambda_handler json_loads should_chunk handle_large_file
      handle_small_file event context w = (Returned resp, w')
    /\ (LambdaFunction.statusCode resp = 400%Z /\ w' = w
        \/ (exists msg, resp = LambdaFunction.error_response msg 500)
        \/ (exists path text,
              handle_large_file (LambdaFunction.aws_request_id context)
                path text w = (Returned resp, w')
              \/ handle_small_file (LambdaFunction.aws_request_id context)
                   path text w = (Returned resp, w')))
    /\ (event_body_is_null event ->
        resp = LambdaFunction.error_response
                 "the JSON object must be str, bytes or bytearray, not NoneType"
                 500)
    /\ (forall msg,
          fst (LambdaFunction.load_body json_loads event w) = Raised msg ->
          resp = LambdaFunction.error_response msg 500 /\ w' = w)
    /\ (forall parsed,
          fst (LambdaFunction.load_body json_loads event w)
          = Returned parsed ->
          (forall items, parsed <> LambdaFunction.JObj items) ->
          resp = LambdaFunction.error_response
                   (LambdaFunction.attribute_error parsed "get") 500
          /\ w' = w).
Proof.
  unfold event_body_is_null. unfold_handler. rewrite load_body_eq.
  destruct (fst (LambdaFunction.load_body json_loads event w))
    as [parsed|msg] eqn:Hload.
  - assert (Hnull : LambdaFunction.event_body event <> Some None).
    { intros Hnull. unfold LambdaFunction.load_body in Hload.
      rewrite Hnull in Hload. discriminate. }
    destruct parsed as [ |b|n|q|s|arr|items];
      try (do 2 eexists; split; [reflexivity|];
           split; [right; left; eauto|];
           split; [done|]; split; [intros msg [=]|];
           intros parsed [= <-] _; by split).
    set (file_path := LambdaFunction.dict_get "file_path" items).
    set (file_content := LambdaFunction.dict_get "file_content" items).
    destruct (negb (LambdaFunction.truthy file_path)
              || negb (LambdaFunction.truthy file_content)).
    { do 2 eexists. split; [reflexivity|]. split; [left; by split|].
      split; [done|]. split; [intros msg [=]|].
      intros parsed [= <-] Hobj. by destruct (Hobj items). }
    destruct file_path as [ |b|n|q|s|arr|fields];
      try (do 2 eexists; split; [reflexivity|];
           split; [right; left; eauto|];
           split; [done|]; split; [intros msg [=]|];
           intros parsed [= <-] Hobj; by destruct (Hobj items)).
    cbn. destruct (negb (LambdaFunction.endswith ".py" s)).
    { do 2 eexists. split; [reflexivity|]. split; [left; by split|].
      split; [done|]. split; [intros msg [=]|].
      intros parsed [= <-] Hobj. by destruct (Hobj items). }
    destruct (should_chunk file_content) as [[|]|msg] eqn:Hchunk.
    + destruct (handle_large_file _ _ _ w) as [[resp|msg] w'] eqn:Hlarge;
        do 2 eexists; (split; [reflexivity|]);
        (split; [right; eauto 7|]);
        (split; [done|]); (split; [intros ? [=]|]);
        intros parsed [= <-] Hobj; by destruct (Hobj items).
    + destruct (handle_small_file _ _ _ w) as [[resp|msg] w'] eqn:Hsmall;
        do 2 eexists; (split; [reflexivity|]);
        (split; [right; eauto 7|]);
        (split; [done|]); (split; [intros ? [=]|]);
        intros parsed [= <-] Hobj; by destruct (Hobj items).
    + do 2 eexists. split; [reflexivity|]. split; [right; left; eauto|].
      split; [done|]. split; [intros ? [=]|].
      intros parsed [= <-] Hobj. by destruct (Hobj items).
  - do 2 eexists. split; [reflexivity|]. split; [right; left; eauto|].
    split.
    + intros Hnull. unfold LambdaFunction.load_body in Hload.
      rewrite Hnull in Hload. cbn in Hload. by injection Hload as <-.
    + split; [by intros ? [= <-]|]. intros parsed [=].
Qed.

(** X16.  A request that passes the checks is handed to exactly one
    handler, chosen by [should_chunk] on the file content, with the request
    id, the path and the content; what the handler returns is returned as
    it is, and a handler that raises is answered with status 500 and the
    message of its exception. *)
Theorem lambda_handler_delegates_valid_requests json_loads should_chunk
    (handle_large_file handle_small_file :
       string -> LambdaFunction.Json -> LambdaFunction.Json
       -> M LambdaFunction.Response)
    event context w items p (large : bool) :
  fst (LambdaFunction.load_body json_loads event w)
  = Returned (LambdaFunction.JObj items) ->
  LambdaFunction.dict_get "file_path" items
  = LambdaFunction.JStr (p +:+ ".py") ->
  LambdaFunction.truthy (LambdaFunction.dict_get "file_content" items)
  = true ->
  should_chunk (LambdaFunction.dict_get "file_content" items)
  = Returned large ->
  let handler := if large then handle_large_file else handle_small_file in
  let handled :=
    handler (LambdaFunction.aws_request_id context)
      (LambdaFunction.JStr (p +:+ ".py"))
      (LambdaFunction.dict_get "file_content" items) w in
  LambdaFunction.lambda_handler json_loads should_chunk handle_large_file
    handle_small_file event context w
  = match handled with
    | (Returned resp, w') => (Returned resp, w')
    | (Raised msg, w') =>
        (Returned (LambdaFunction.error_response msg 500), w')
    end.
Proof.
  intros Hload Hpath Hcontent Hchunk. cbn zeta. unfold_handler.
  rewrite load_body_eq, Hload, Hpath, Hcontent.
  assert (Htruthy : LambdaFunction.truthy
                      (LambdaFunction.JStr (p +:+ ".py")) = true).
  { cbn. destruct p; reflexivity. }
  rewrite Htruthy. cbn [negb orb].
  assert (Hend : LambdaFunction.endswith ".py" (p +:+ ".py") = true)
    by (apply endswith_spec; eauto).
  rewrite Hend, Hchunk. cbn [negb].
  destruct large; reflexivity.
Qed.

Lemma lambda_handler_delegates_valid_requests_witness :
  LambdaFunction.lambda_handler ToyMore.loads ToyMore.never_chunk
    ToyMore.large ToyMore.small
    (LambdaFunction.mkLambdaEvent (Some (Some "py"))) ToyMore.context
    Toy.cold
  = (Returned ToyMore.ok_response, Toy.cold).
Proof.
  apply (lambda_handler_delegates_valid_requests ToyMore.loads
           ToyMore.never_chunk ToyMore.large ToyMore.small
           (LambdaFunction.mkLambdaEvent (Some (Some "py"))) ToyMore.context
           Toy.cold
           [ ("file_path", LambdaFunction.JStr "a.py");
             ("file_content", LambdaFunction.JStr "x = 1") ]
           "a" false); reflexivity.
Defined.

(* ===================================================================== *)
(** ** Running on a cold cache *)
(* ===================================================================== *)

Lemma run_jobs_cold env self file_path schedule w :
  NoDup (map (ChunkProcessor._calculate_chunk_hash env file_path) schedule) ->
  (forall chunk, chunk ∈ schedule ->
     table w !! ChunkProcessor._calculate_chunk_hash env file_path chunk
     = None) ->
  List.filter cached
    (returned_results
       (fst (ChunkProcessor.run_jobs env self file_path schedule w)))
  = [].
Proof.
  revert w. induction schedule as [|c rest IH]; intros w Hnodup Hcold; cbn;
    [reflexivity|].
  cbn in Hnodup. apply NoDup_cons in Hnodup as [Hfresh Hnodup].
  pose proof (job_cases env self file_path c w) as Hcase.
  destruct (ChunkProcessor._process_single_chunk _ _ _ _ _)
    as [o w1] eqn:Hjob.
  destruct (job_footprint _ _ _ _ _ _ _ Hjob) as (_ & _ & Hother & _).
  assert (Hrest : forall chunk, chunk ∈ rest ->
            table w1
              !! ChunkProcessor._calculate_chunk_hash env file_path chunk
            = None).
  { intros chunk Hin. rewrite Hother; [apply Hcold; by right|].
    intros Heq. apply Hfresh. rewrite <- Heq.
    apply list_elem_of_In, in_map. by apply list_elem_of_In. }
  specialize (IH w1 Hnodup Hrest).
  destruct (ChunkProcessor.run_jobs _ _ _ _ _) as [os w2]. cbn in *.
  inversion Hcase as [item Hlook | msg ? ? ? Hlook
                     | text metrics call ? Hlook]; subst; cbn.
  - rewrite get_cached_eq in Hlook. cbn in Hlook.
    rewrite (Hcold c) in Hlook by left.
    by destruct (get_item_fault env (clock w) _).
  - exact IH.
  - exact IH.
Qed.

(** X17.  When the table holds no entry under the key of any chunk, and
    the keys of the chunks differ, an invocation serves nothing from the
    cache: it reports no hit and a hit rate of zero, and calls the
    generator once for every chunk. *)
Theorem cold_run_generates_every_chunk env self file_path chunks schedule w :
  schedule ≡ₚ chunks ->
  NoDup (map (ChunkProcessor._calculate_chunk_hash env file_path) chunks) ->
  (forall chunk, chunk ∈ chunks ->
     table w !! ChunkProcessor._calculate_chunk_hash env file_path chunk
     = None) ->
  exists doc m w' calls,
    ChunkProcessor.process_chunks env self file_path chunks schedule w
    = (Returned (doc, m), w')
    /\ cache_hits m = 0%nat
    /\ cache_hit_rate m == 0
    /\ generator_calls w' = generator_calls w ++ calls
    /\ length calls = total_chunks m.
Proof.
  intros Hperm Hnodup Hcold.
  rewrite (process_chunks_eq _ _ _ _ _ _ (Permutation_length Hperm)).
  destruct (run_jobs_footprint env self file_path schedule w)
    as (Hn & [calls Hcalls] & _). cbn zeta in Hn.
  assert (Hnone : List.filter cached
            (returned_results
               (fst (ChunkProcessor.run_jobs env self file_path schedule w)))
            = []).
  { apply run_jobs_cold.
    - by rewrite (Permutation_map _ Hperm).
    - intros chunk Hin. apply Hcold. by rewrite <- Hperm. }
  rewrite Hnone in Hn. cbn in Hn.
  do 3 eexists. exists calls. split; [reflexivity|]. cbn.
  rewrite collect_hits, Hnone. cbn.
  split; [reflexivity|]. split.
  - unfold ChunkProcessor.hit_rate. destruct chunks; reflexivity.
  - split; [exact Hcalls|].
    rewrite Hcalls, length_app in Hn. apply Permutation_length in Hperm. lia.
Qed.

Lemma cold_run_generates_every_chunk_witness :
  exists doc m w' calls,
    ChunkProcessor.process_chunks Toy.env Toy.processor "f.py"
      [Toy.chunkA; Toy.chunkB] [Toy.chunkB; Toy.chunkA] Toy.cold
    = (Returned (doc, m), w')
    /\ cache_hits m = 0%nat
    /\ cache_hit_rate m == 0
    /\ generator_calls w' = generator_calls Toy.cold ++ calls
    /\ length calls = total_chunks m.
Proof.
  apply (cold_run_generates_every_chunk Toy.env Toy.processor "f.py"
           [Toy.chunkA; Toy.chunkB] [Toy.chunkB; Toy.chunkA] Toy.cold).
  - apply perm_swap.
  - exact (bool_decide_unpack
             (NoDup (map (ChunkProcessor._calculate_chunk_hash Toy.env "f.py")
                       [Toy.chunkA; Toy.chunkB])) I).
  - intros chunk Hin. reflexivity.
Defined.
